(** * Wallet and withdrawal settlement of the contest platform backend

    A shallow embedding of [src/routes/wallet.ts],
    [src/services/walletService.ts], the [authorize] middleware of
    [src/middleware/auth.ts] and the prize credit of
    [src/services/contestService.ts].

    Conventions of the embedding:
    - a JavaScript [number] is the rational it denotes ([Q]). The wallet
      updates are taken on the exact rationals, with the rounding to
      cents the code performs itself
      ([Math.round((x + Number.EPSILON) * 100) / 100]); the fee
      schedule, which rounds products of the amount without that guard,
      is taken on IEEE binary64: every operation rounds its exact result
      to the nearest double ([Double.fl]);
    - [req.body.amount] is what JSON gives the handler, a number or a
      string ([BodyAmount]); the handler on numbers is [post_withdrawals],
      the route with its [authorize] middleware and both kinds of amount
      is [withdrawals_route];
    - a uuid primary key is a natural number, a fresh one is larger than
      every key already in the table;
    - an [await]ed repository call is a step of a state-and-exception
      monad over the database; a write may fail, as decided by an oracle
      on the number of writes attempted so far;
    - a query-runner transaction restores the tables it started from when
      its body throws. *)

From Stdlib Require Import QArith Qround Qminmax ZArith List String Ascii Bool Lia Lqa.
From Stdlib Require Import SpecFloat DecimalString.
Import ListNotations.
Open Scope Q_scope.

(* ------------------------------------------------------------------ *)
(** ** JavaScript numerics used by the wallet code *)

Module JS.

(** [Math.round]: the nearest integer, a tie going toward +infinity. *)
Definition Math_round (x : Q) : Q := inject_Z (Qfloor (x + (1 # 2))).

(** [Math.max] on two numbers. *)
Definition Math_max (a b : Q) : Q := Qmax a b.

(** [Number.EPSILON], 2^-52. *)
Definition Number_EPSILON : Q := 1 # (2 ^ 52).

(** Truthiness of a number: every number but 0 (NaN is not modelled). *)
Definition truthy (x : Q) : bool := negb (Qeq_bool x 0).

(** [x || d] on numbers. *)
Definition num_or (x d : Q) : Q := if truthy x then x else d.

(** Truthiness of a possibly missing string: present and not empty. *)
Definition truthy_str (o : option string) : bool :=
    match o with
    | Some s => negb (String.eqb s EmptyString)
    | None => false
    end.

(** [o || d] where [o] is a possibly missing string. *)
Definition str_or (o : option string) (d : string) : string :=
    match o with
    | Some s => if String.eqb s EmptyString then d else s
    | None => d
    end.

(** [a < b] as a boolean test. *)
Definition lt (a b : Q) : bool := negb (Qle_bool b a).

End JS.

Import JS.

(* ------------------------------------------------------------------ *)
(** ** IEEE binary64, as the rationals it denotes *)

Module Double.

Definition prec : Z := 53.
Definition emax : Z := 1024.

(** The double nearest to a rational, a tie going to the even mantissa:
    the quotient of numerator and denominator as [SFdiv] rounds it. *)
Definition of_Q (q : Q) : spec_float :=
  match Qnum q with
  | Z0 => S754_zero false
  | Zpos n => SFdiv prec emax (S754_finite false n 0) (S754_finite false (Qden q) 0)
  | Zneg n => SFdiv prec emax (S754_finite true n 0) (S754_finite false (Qden q) 0)
  end.

(** The rational a finite double denotes. An overflow to infinity is
    not a rational and is outside the model (it reads as 0): the fee
    schedule runs on an amount that the balance covers. *)
Definition to_Q (x : spec_float) : Q :=
  match x with
  | S754_finite s m e =>
      let v := match e with
               | Zneg p => Zpos m # (2 ^ p)
               | _ => inject_Z (Zpos m * 2 ^ e)
               end in
      if s then - v else v
  | _ => 0
  end.

(** Rounding to nearest: what reading a decimal literal does, and what
    every arithmetic operation does to its exact result. *)
Definition fl (q : Q) : Q := to_Q (of_Q q).

Definition add (x y : Q) : Q := fl (x + y).
Definition sub (x y : Q) : Q := fl (x - y).
Definition mul (x y : Q) : Q := fl (x * y).
Definition div (x y : Q) : Q := fl (x / y).

End Double.

(* ------------------------------------------------------------------ *)
(** ** Fee schedule: wallet.ts, lines 304-308 *)

(** [const percentFee = Math.round(amount * 0.025 * 100) / 100;]
    [amount] is the number of the request body as the handler holds it,
    [0.025] the double of that literal; [Math.round] is exact on the
    double it is given. *)
Definition percentFee (amount : Q) : Q :=
  Double.div
    (Math_round (Double.mul (Double.mul (Double.fl amount) (Double.fl 0.025)) 100))
    100.

(** [const fixedFee = 100;] *)
Definition fixedFee : Q := 100.

(** [const fee = percentFee + fixedFee;] *)
Definition fee (amount : Q) : Q := Double.add (percentFee amount) fixedFee.

(** [const net = Math.max(0, Math.round((amount - fee) * 100) / 100);] *)
Definition net (amount : Q) : Q :=
  Math_max 0
    (Double.div
       (Math_round (Double.mul (Double.sub (Double.fl amount) (fee amount)) 100))
       100).

(** Rounding to two decimals on exact decimals, as the specification of
    the fee means it: the multiple of 1/100 nearest to [x], a tie going
    up ([round2_nearest_cent] below). *)
Definition round2 (x : Q) : Q := inject_Z (Qfloor (x * 100 + (1 # 2))) / 100.

(** An amount of whole minor units (kobo, cents). *)
Definition whole_cents (q : Q) : Prop := exists n : Z, q == inject_Z n / 100.

(* ------------------------------------------------------------------ *)
(** ** Data model: src/types and the entity classes under src/models *)

(** A uuid primary key. *)
Definition uuid : Type := nat.

Bind Scope nat_scope with uuid.

Inductive TransactionType : Type :=
| DEPOSIT | WITHDRAWAL | CONTEST_PRIZE | CONTEST_CREATION
| CONTEST_BOOST | PLATFORM_FEE | WITHDRAWAL_FEE | TRANSFER.

Inductive TransactionStatus : Type := PENDING | COMPLETED | FAILED | CANCELLED.

(** [entry_type: 'credit' | 'debit'] of a ledger row. *)
Inductive EntryType : Type := credit | debit.

(** Entity [Wallet] (table [wallets]); the decimal columns are numbers
    once loaded, through the column transformers. *)
Record Wallet : Type := mkWallet {
  w_id : uuid;
  w_user_id : uuid;
  balance : Q;
  pending_balance : Q;
  total_deposited : Q;
  total_earned : Q;
  w_currency : string
}.

(** Entity [Transaction] (table [transactions]); of [metadata] only the
    [verified] flag is kept. *)
Record Transaction : Type := mkTransaction {
  t_id : uuid;
  t_wallet_id : uuid;
  t_user_id : uuid;
  t_amount : Q;
  transaction_type : TransactionType;
  t_status : TransactionStatus;
  t_description : string;
  t_reference : option string;
  t_verified : bool
}.

(** Entity [WalletLedger] (table [wallet_ledger]). *)
Record WalletLedger : Type := mkLedger {
  l_id : uuid;
  l_wallet_id : uuid;
  l_user_id : uuid;
  entry_type : EntryType;
  l_amount : Q;
  balance_after : Q;
  l_reference : option string;
  l_transaction_id : option uuid;
  context : string
}.

(** Entity [Withdrawal] (table [withdrawals]); [completed_at] records
    only whether the date was set. *)
Record Withdrawal : Type := mkWithdrawal {
  wd_id : uuid;
  wd_user_id : uuid;
  bank_account_name : string;
  bank_account_number : string;
  wd_bank_name : string;
  wd_bank_code : string;
  wd_amount : Q;
  wd_fee : Q;
  net_amount : Q;
  wd_currency : string;
  wd_status : string;
  admin_notes : option string;
  external_reference : option string;
  wd_transaction_id : option uuid;
  completed_at : bool
}.

(** Entity [BankAccount] (table [bank_accounts]), the columns the
    withdrawal route reads. *)
Record BankAccount : Type := mkBankAccount {
  ba_id : uuid;
  ba_user_id : uuid;
  account_name : string;
  account_number : string;
  ba_bank_name : string;
  ba_bank_code : string
}.

(** The relational state: one list of rows per table, in insertion order. *)
Record DB : Type := mkDB {
  users : list uuid;
  wallets : list Wallet;
  transactions : list Transaction;
  wallet_ledger : list WalletLedger;
  withdrawals : list Withdrawal;
  bank_accounts : list BankAccount
}.

Definition with_wallets (d : DB) (ws : list Wallet) : DB :=
  mkDB (users d) ws (transactions d) (wallet_ledger d) (withdrawals d) (bank_accounts d).

Definition with_transactions (d : DB) (ts : list Transaction) : DB :=
  mkDB (users d) (wallets d) ts (wallet_ledger d) (withdrawals d) (bank_accounts d).

Definition with_wallet_ledger (d : DB) (ls : list WalletLedger) : DB :=
  mkDB (users d) (wallets d) (transactions d) ls (withdrawals d) (bank_accounts d).

Definition with_withdrawals (d : DB) (wds : list Withdrawal) : DB :=
  mkDB (users d) (wallets d) (transactions d) (wallet_ledger d) wds (bank_accounts d).

(* ------------------------------------------------------------------ *)
(** ** Tables *)

Section Tables.

Context {R : Type} (key : R -> uuid).

(** [findOne({ where: { id } })] *)
Definition find_by_id (i : uuid) (tbl : list R) : option R :=
  find (fun r => Nat.eqb (key r) i) tbl.

(** A generated primary key: larger than every key in the table. *)
Definition fresh_id (tbl : list R) : uuid :=
  S (fold_right (fun r m => Nat.max (key r) m) 0%nat tbl).

(** [save(entity)]: the row with the entity's key is replaced; without
    such a row the entity is appended. *)
Definition upsert (r : R) (tbl : list R) : list R :=
  if existsb (fun x => Nat.eqb (key x) (key r)) tbl
  then map (fun x => if Nat.eqb (key x) (key r) then r else x) tbl
  else tbl ++ [r].

End Tables.

(* ------------------------------------------------------------------ *)
(** ** The payment gateway (paymentService.ts), as seen by the routes *)

(** [data] of a successful [verifyPayment]: the amount in kobo, when the
    gateway reports one. *)
Record VerifyData : Type := mkVerifyData {
  vd_amount : option Q
}.

Record VerifyResult : Type := mkVerifyResult {
  v_success : bool;
  v_verified : bool;
  v_data : option VerifyData;
  v_message : option string
}.

Record TransferData : Type := mkTransferData {
  td_reference : option string;
  transfer_code : option string
}.

Record TransferResult : Type := mkTransferResult {
  tr_success : bool;
  tr_data : option TransferData;
  tr_message : option string
}.

(** What a handler runs against: which database writes fail (by the
    number of writes attempted before), and the gateway's answers. *)
Record Env : Type := mkEnv {
  write_fails : nat -> bool;
  verifyPayment : string -> VerifyResult;
  initiateBankTransfer : Q -> string -> string -> string -> TransferResult
}.

(* ------------------------------------------------------------------ *)
(** ** State and exceptions *)

(** The database, the number of writes attempted, and the bank transfers
    asked of the gateway, each with the database it was asked on. *)
Record World : Type := mkWorld {
  db : DB;
  writes : nat;
  transfer_calls : list (Q * DB)
}.

Inductive Outcome (A : Type) : Type :=
| Ok (a : A)
| Thrown (e : string).

Arguments Ok {A} a.
Arguments Thrown {A} e.

Definition M (A : Type) : Type := World -> Outcome A * World.

Definition ret {A : Type} (a : A) : M A := fun s => (Ok a, s).

Definition throw {A : Type} (e : string) : M A := fun s => (Thrown e, s).

Definition bind {A B : Type} (m : M A) (k : A -> M B) : M B :=
  fun s =>
    match m s with
    | (Ok a, s1) => k a s1
    | (Thrown e, s1) => (Thrown e, s1)
    end.

Notation "x <- m ;; k" := (bind m (fun x => k))
  (at level 61, m at next level, right associativity).

Notation "m ;;; k" := (bind m (fun _ => k))
  (at level 61, right associativity).

(** A read of the database. *)
Definition query {A : Type} (f : DB -> A) : M A := fun s => (Ok (f (db s)), s).

(** An HTTP response: status, [success] and [message]. *)
Record Response : Type := mkResponse {
  status : nat;
  success : bool;
  message : string
}.

(** [try { ... } catch (error) { res.status(500).json(...) }] *)
Definition catch_500 (m : M Response) : M Response :=
  fun s =>
    match m s with
    | (Ok r, s1) => (Ok r, s1)
    | (Thrown _, s1) => (Ok (mkResponse 500 false "Internal server error"), s1)
    end.
(* ------------------------------------------------------------------ *)
(** ** Wallet updates and the rows the routes build *)

Definition with_balance (w : Wallet) (b : Q) : Wallet :=
  mkWallet (w_id w) (w_user_id w) b (pending_balance w)
           (total_deposited w) (total_earned w) (w_currency w).

Definition with_pending_balance (w : Wallet) (p : Q) : Wallet :=
  mkWallet (w_id w) (w_user_id w) (balance w) p
           (total_deposited w) (total_earned w) (w_currency w).

Definition with_total_deposited (w : Wallet) (t : Q) : Wallet :=
  mkWallet (w_id w) (w_user_id w) (balance w) (pending_balance w)
           t (total_earned w) (w_currency w).

(** wallet.ts 129-132 and 157-160, walletService.ts 101-105:
    [wallet.balance += amount; wallet.total_deposited += amount]
    (the [typeof ... === 'number'] guard holds of a loaded wallet). *)
Definition credit_wallet (w : Wallet) (amount : Q) : Wallet :=
  with_total_deposited (with_balance w (balance w + amount))
                       (total_deposited w + amount).

(** wallet.ts 319-320, stage 1. *)
Definition hold_wallet (w : Wallet) (amount : Q) : Wallet :=
  with_pending_balance
    (with_balance w
       (Math_round (((balance w - amount) + Number_EPSILON) * 100) / 100))
    (Math_round (((num_or (pending_balance w) 0 + amount) + Number_EPSILON) * 100) / 100).

(** wallet.ts 374-375, stage 2A. *)
Definition refund_wallet (w : Wallet) (amount : Q) : Wallet :=
  with_pending_balance
    (with_balance w
       (Math_round (((balance w + amount) + Number_EPSILON) * 100) / 100))
    (Math_max 0
       (Math_round (((num_or (pending_balance w) 0 - amount) + Number_EPSILON) * 100) / 100)).

(** wallet.ts 413, stage 2B. *)
Definition settle_wallet (w : Wallet) (amount : Q) : Wallet :=
  with_pending_balance w
    (Math_max 0
       (Math_round (((num_or (pending_balance w) 0 - amount) + Number_EPSILON) * 100) / 100)).

(** wallet.ts 141-149 and 174-182: the deposit's ledger row. *)
Definition deposit_entry (w : Wallet) (uid : uuid) (amount : Q)
    (reference : option string) (tx : uuid) (i : uuid) : WalletLedger :=
  mkLedger i (w_id w) uid credit amount (balance w) reference (Some tx) "deposit".

(** wallet.ts 332-339. *)
Definition hold_entry (w : Wallet) (uid : uuid) (amount : Q)
    (tx : uuid) (i : uuid) : WalletLedger :=
  mkLedger i (w_id w) uid debit amount (balance w) None (Some tx) "withdrawal_hold".

(** wallet.ts 386-393. *)
Definition refund_entry (w : Wallet) (uid : uuid) (amount : Q)
    (tx : uuid) (i : uuid) : WalletLedger :=
  mkLedger i (w_id w) uid credit amount (balance w) None (Some tx) "withdrawal_refund".

(** wallet.ts 435-442. *)
Definition settle_entry (w : Wallet) (uid : uuid) (net_amt : Q)
    (tx : uuid) (i : uuid) : WalletLedger :=
  mkLedger i (w_id w) uid debit net_amt (balance w) None (Some tx) "withdrawal_settle".

(** wallet.ts 445-452. *)
Definition fee_entry (w : Wallet) (uid : uuid) (fee_amt : Q)
    (tx : uuid) (i : uuid) : WalletLedger :=
  mkLedger i (w_id w) uid debit fee_amt (balance w) None (Some tx) "withdrawal_fee".

Definition tx_with_status (t : Transaction) (st : TransactionStatus)
    (descr : string) (v : bool) : Transaction :=
  mkTransaction (t_id t) (t_wallet_id t) (t_user_id t) (t_amount t)
                (transaction_type t) st descr (t_reference t) v.

(** wallet.ts 378-379. *)
Definition wd_failed (wd : Withdrawal) (notes : string) : Withdrawal :=
  mkWithdrawal (wd_id wd) (wd_user_id wd) (bank_account_name wd)
               (bank_account_number wd) (wd_bank_name wd) (wd_bank_code wd)
               (wd_amount wd) (wd_fee wd) (net_amount wd) (wd_currency wd)
               "failed" (Some notes) (external_reference wd)
               (wd_transaction_id wd) (completed_at wd).

(** wallet.ts 420-422. *)
Definition wd_completed (wd : Withdrawal) (ext : option string) : Withdrawal :=
  mkWithdrawal (wd_id wd) (wd_user_id wd) (bank_account_name wd)
               (bank_account_number wd) (wd_bank_name wd) (wd_bank_code wd)
               (wd_amount wd) (wd_fee wd) (net_amount wd) (wd_currency wd)
               "completed" (admin_notes wd) ext
               (wd_transaction_id wd) true.

(** [a || b] on two possibly missing strings. *)
Definition first_truthy (a b : option string) : option string :=
  if truthy_str a then a else b.

(** The bank account a withdrawal pays to: [accountInfo], wallet.ts 291. *)
Record AccountInfo : Type := mkAccountInfo {
  ai_name : string;
  ai_number : string;
  ai_bankName : string;
  ai_bankCode : string
}.

(** Body of [POST /withdrawals] after authentication. A missing or empty
    field is [None]. *)
Record WithdrawalRequest : Type := mkWithdrawalRequest {
  wr_user : uuid;
  wr_amount : Q;
  wr_bank_account_id : option uuid;
  wr_bank_name : option string;
  wr_bank_code : option string;
  wr_account_number : option string;
  wr_account_name : option string
}.

(** Body of [POST /deposits/verify] after authentication. *)
Record VerifyRequest : Type := mkVerifyRequest {
  vr_user : uuid;
  vr_reference : string;
  vr_expectedAmount : option Q
}.

(** Truthiness of a possibly missing number. *)
Definition truthy_num (o : option Q) : bool :=
  match o with
  | Some q => truthy q
  | None => false
  end.

Definition opt_num (o : option Q) : Q :=
  match o with
  | Some q => q
  | None => 0
  end.

Definition opt_str (o : option string) : string :=
  match o with
  | Some s => s
  | None => EmptyString
  end.

Definition is_some {A : Type} (o : option A) : bool :=
  match o with
  | Some _ => true
  | None => false
  end.

Definition status_eqb (a b : TransactionStatus) : bool :=
  match a, b with
  | PENDING, PENDING | COMPLETED, COMPLETED
  | FAILED, FAILED | CANCELLED, CANCELLED => true
  | _, _ => false
  end.

Definition opt_string_eqb (o : option string) (s : string) : bool :=
  match o with
  | Some r => String.eqb r s
  | None => false
  end.

(** [verify.data.amount], a missing one being [undefined] (falsy, so 0
    under [|| 0]). *)
Definition data_amount (verify : VerifyResult) : Q :=
  match v_data verify with
  | Some data => opt_num (vd_amount data)
  | None => 0
  end.

(** [transfer.data], read only where it is present. *)
Definition transfer_data (transfer : TransferResult) : TransferData :=
  match tr_data transfer with
  | Some data => data
  | None => mkTransferData None None
  end.

(* ------------------------------------------------------------------ *)
(** ** Repositories, transactions and the two routes *)

Section Handlers.

Variable env : Env.

(** One write sent to the database: it fails when the oracle says so,
    and is counted either way. *)
Definition db_write (f : DB -> DB) : M unit :=
  fun s =>
    if write_fails env (writes s)
    then (Thrown "Database write failed",
          mkWorld (db s) (S (writes s)) (transfer_calls s))
    else (Ok tt, mkWorld (f (db s)) (S (writes s)) (transfer_calls s)).

Definition save_wallet (w : Wallet) : M Wallet :=
  db_write (fun d => with_wallets d (upsert w_id w (wallets d))) ;;; ret w.

Definition save_transaction (t : Transaction) : M Transaction :=
  db_write (fun d => with_transactions d (upsert t_id t (transactions d))) ;;; ret t.

Definition save_withdrawal (wd : Withdrawal) : M Withdrawal :=
  db_write (fun d => with_withdrawals d (upsert wd_id wd (withdrawals d))) ;;; ret wd.

Definition save_ledger (l : WalletLedger) : M WalletLedger :=
  db_write (fun d => with_wallet_ledger d (upsert l_id l (wallet_ledger d))) ;;; ret l.

(** [save] of an entity built with [new]: the key is generated. *)
Definition save_new_wallet (mk : uuid -> Wallet) : M Wallet :=
  i <- query (fun d => fresh_id w_id (wallets d)) ;; save_wallet (mk i).

Definition save_new_transaction (mk : uuid -> Transaction) : M Transaction :=
  i <- query (fun d => fresh_id t_id (transactions d)) ;; save_transaction (mk i).

Definition save_new_withdrawal (mk : uuid -> Withdrawal) : M Withdrawal :=
  i <- query (fun d => fresh_id wd_id (withdrawals d)) ;; save_withdrawal (mk i).

Definition save_new_ledger (mk : uuid -> WalletLedger) : M WalletLedger :=
  i <- query (fun d => fresh_id l_id (wallet_ledger d)) ;; save_ledger (mk i).

(** A query-runner transaction:
    [startTransaction(); try { body; commitTransaction() }
     catch (e) { rollbackTransaction(); release(); throw e }]. *)
Definition in_transaction {A : Type} (body : M A) : M A :=
  fun s =>
    match (x <- body ;; db_write (fun d => d) ;;; ret x) s with
    | (Ok a, s1) => (Ok a, s1)
    | (Thrown e, s1) => (Thrown e, mkWorld (db s) (writes s1) (transfer_calls s1))
    end.

(** [paymentService.initiateBankTransfer], recorded with the database
    it is called on. *)
Definition call_initiateBankTransfer (amount : Q) (name number code : string)
    : M TransferResult :=
  fun s =>
    (Ok (initiateBankTransfer env amount name number code),
     mkWorld (db s) (writes s) (transfer_calls s ++ [(amount, db s)])).

(** walletService.ts 35-52. *)
Definition createWallet (userId : uuid) : M Wallet :=
  existingWallet <- query (fun d => find (fun w => Nat.eqb (w_user_id w) userId) (wallets d)) ;;
  match existingWallet with
  | Some w => ret w
  | None => save_new_wallet (fun i => mkWallet i userId 0 0 0 0 "USD")
  end.

(** walletService.ts 12-32. *)
Definition getWalletByUserId (userId : uuid) : M Wallet :=
  user <- query (fun d => find (Nat.eqb userId) (users d)) ;;
  match user with
  | None => throw "User not found"
  | Some _ =>
      wallet <- query (fun d => find (fun w => Nat.eqb (w_user_id w) userId) (wallets d)) ;;
      match wallet with
      | Some w => ret w
      | None => createWallet userId
      end
  end.

(** walletService.ts 94-124. *)
Definition addFunds (userId : uuid) (amount : Q) (paymentMethod : string)
    : M (Wallet * Transaction) :=
  wallet <- getWalletByUserId userId ;;
  savedWallet <- save_wallet (credit_wallet wallet amount) ;;
  transaction <- save_new_transaction (fun i =>
    mkTransaction i (w_id wallet) userId amount DEPOSIT COMPLETED
                  (String.append "Deposit via " paymentMethod) None false) ;;
  ret (savedWallet, transaction).

(** walletService.ts 127-160. *)
Definition withdrawFunds (userId : uuid) (amount : Q) (bank : string)
    : M (Wallet * Transaction) :=
  wallet <- getWalletByUserId userId ;;
  if lt (balance wallet) amount then throw "Insufficient balance"
  else
    wallet1 <- save_wallet (with_balance wallet (balance wallet - amount)) ;;
    transaction <- save_new_transaction (fun i =>
      mkTransaction i (w_id wallet) userId amount WITHDRAWAL PENDING
                    (String.append "Withdrawal to " bank) None false) ;;
    ret (wallet1, transaction).

(** walletService.ts 163-204. Both wallets are read before either is
    written. *)
Definition transferFunds (fromUserId toUserId : uuid) (amount : Q)
    (description : string) : M (Wallet * Wallet) :=
  fromWallet <- getWalletByUserId fromUserId ;;
  toWallet <- getWalletByUserId toUserId ;;
  if lt (balance fromWallet) amount then throw "Insufficient balance"
  else
    fromWallet1 <- save_wallet (with_balance fromWallet (balance fromWallet - amount)) ;;
    toWallet1 <- save_wallet (with_balance toWallet (balance toWallet + amount)) ;;
    save_new_transaction (fun i =>
      mkTransaction i (w_id fromWallet) fromUserId amount TRANSFER COMPLETED
                    description None false) ;;;
    save_new_transaction (fun i =>
      mkTransaction i (w_id toWallet) toUserId amount TRANSFER COMPLETED
                    description None false) ;;;
    ret (fromWallet1, toWallet1).

(** wallet.ts 124-152: the credit when a pending transaction was found. *)
Definition credit_pending (uid : uuid) (pendingTx : Transaction) (amount : Q)
    : M Response :=
  wallet <- query (fun d => find (fun w => Nat.eqb (w_user_id w) uid) (wallets d)) ;;
  match wallet with
  | None => ret (mkResponse 404 false "Wallet not found")
  | Some wallet0 =>
      wallet1 <- save_wallet (credit_wallet wallet0 amount) ;;
      save_transaction
        (tx_with_status pendingTx COMPLETED "Wallet deposit completed" true) ;;;
      save_new_ledger
        (deposit_entry wallet1 uid amount (t_reference pendingTx) (t_id pendingTx)) ;;;
      ret (mkResponse 200 true EmptyString)
  end.

(** wallet.ts 155-185: the credit when no pending transaction was found. *)
Definition credit_fallback (uid : uuid) (reference : string) (amount : Q)
    : M Response :=
  wallet0 <- getWalletByUserId uid ;;
  wallet1 <- save_wallet (credit_wallet wallet0 amount) ;;
  completed <- save_new_transaction (fun i =>
    mkTransaction i (w_id wallet1) uid amount DEPOSIT COMPLETED
                  "Wallet deposit (no pending record)" (Some reference) true) ;;
  save_new_ledger
    (deposit_entry wallet1 uid amount (Some reference) (t_id completed)) ;;;
  ret (mkResponse 200 true EmptyString).

(** wallet.ts 89-190, [POST /deposits/verify]. *)
Definition post_deposits_verify (req : VerifyRequest) : M Response :=
  catch_500 (
    if String.eqb (vr_reference req) EmptyString
    then ret (mkResponse 400 false "Validation failed")
    else
      pendingTx <- query (fun d =>
        find (fun t => Nat.eqb (t_user_id t) (vr_user req)
                       && opt_string_eqb (t_reference t) (vr_reference req)
                       && status_eqb (t_status t) PENDING)
             (transactions d)) ;;
      let verify := verifyPayment env (vr_reference req) in
      if negb (v_success verify) || negb (v_verified verify)
         || negb (is_some (v_data verify))
      then ret (mkResponse 400 false (str_or (v_message verify) "Verification failed"))
      else
        let amount := num_or (data_amount verify) 0 / 100 in
        if truthy_num (vr_expectedAmount req)
           && negb (Qeq_bool (Math_round (opt_num (vr_expectedAmount req) * 100))
                             (Math_round (amount * 100)))
        then ret (mkResponse 400 false "Amount mismatch")
        else
          match pendingTx with
          | Some ptx =>
              if negb (Qeq_bool (Math_round (num_or (t_amount ptx) 0 * 100))
                                (Math_round (amount * 100)))
              then ret (mkResponse 400 false "Recorded amount mismatch")
              else credit_pending (vr_user req) ptx amount
          | None => credit_fallback (vr_user req) (vr_reference req) amount
          end).

(** wallet.ts 291-302: which bank account the withdrawal pays to. *)
Definition resolve_account (req : WithdrawalRequest) : M (Response + AccountInfo) :=
  match wr_bank_account_id req with
  | Some bank_account_id =>
      acc <- query (fun d =>
        find (fun a => Nat.eqb (ba_id a) bank_account_id
                       && Nat.eqb (ba_user_id a) (wr_user req))
             (bank_accounts d)) ;;
      match acc with
      | None => ret (inl (mkResponse 404 false "Bank account not found"))
      | Some a =>
          ret (inr (mkAccountInfo (account_name a) (account_number a)
                                  (ba_bank_name a) (ba_bank_code a)))
      end
  | None =>
      if truthy_str (wr_bank_name req) && truthy_str (wr_bank_code req)
         && truthy_str (wr_account_number req) && truthy_str (wr_account_name req)
      then ret (inr (mkAccountInfo (opt_str (wr_account_name req))
                                   (opt_str (wr_account_number req))
                                   (opt_str (wr_bank_name req))
                                   (opt_str (wr_bank_code req))))
      else ret (inl (mkResponse 400 false "Bank account details required"))
  end.

(** wallet.ts 310-348, stage 1: the hold. *)
Definition stage1_hold (wallet_id uid : uuid) (amount : Q) : M Transaction :=
  in_transaction (
    w <- query (fun d => find_by_id w_id wallet_id (wallets d)) ;;
    match w with
    | None => throw "Wallet not found"
    | Some w0 =>
        if lt (balance w0) amount then throw "Insufficient balance"
        else
          w1 <- save_wallet (hold_wallet w0 amount) ;;
          savedTx <- save_new_transaction (fun i =>
            mkTransaction i (w_id w1) uid amount WITHDRAWAL PENDING
                          "Withdrawal hold placed" None false) ;;
          save_new_ledger (hold_entry w1 uid amount (t_id savedTx)) ;;;
          ret savedTx
    end).

(** wallet.ts 350-362: the withdrawal row. *)
Definition create_withdrawal (uid : uuid) (accountInfo : AccountInfo)
    (amount fee_amt net_amt : Q) (savedTx : Transaction) : M Withdrawal :=
  save_new_withdrawal (fun i =>
    mkWithdrawal i uid (ai_name accountInfo) (ai_number accountInfo)
                 (ai_bankName accountInfo) (ai_bankCode accountInfo)
                 amount fee_amt net_amt "NGN" "processing" None None
                 (Some (t_id savedTx)) false).

(** wallet.ts 367-402, stage 2A: the refund. *)
Definition stage2A_refund (wallet_id uid : uuid) (amount : Q)
    (savedWd : Withdrawal) (savedTx : Transaction) (transfer : TransferResult)
    : M unit :=
  in_transaction (
    w <- query (fun d => find_by_id w_id wallet_id (wallets d)) ;;
    match w with
    | None => throw "Wallet not found"
    | Some w0 =>
        w1 <- save_wallet (refund_wallet w0 amount) ;;
        save_withdrawal
          (wd_failed savedWd (str_or (tr_message transfer) "Transfer initiation failed")) ;;;
        save_transaction
          (tx_with_status savedTx FAILED "Withdrawal failed (refunded)" (t_verified savedTx)) ;;;
        save_new_ledger (refund_entry w1 uid amount (t_id savedTx)) ;;;
        ret tt
    end).

(** wallet.ts 406-461, stage 2B: the settlement. *)
Definition stage2B_settle (wallet_id uid : uuid) (amount fee_amt net_amt : Q)
    (savedWd : Withdrawal) (savedTx : Transaction) (data : TransferData)
    : M unit :=
  in_transaction (
    w <- query (fun d => find_by_id w_id wallet_id (wallets d)) ;;
    match w with
    | None => throw "Wallet not found"
    | Some w0 =>
        w1 <- save_wallet (settle_wallet w0 amount) ;;
        save_transaction
          (tx_with_status savedTx COMPLETED "Withdrawal completed" (t_verified savedTx)) ;;;
        save_withdrawal
          (wd_completed savedWd (first_truthy (transfer_code data) (td_reference data))) ;;;
        savedFeeTx <- save_new_transaction (fun i =>
          mkTransaction i (w_id w1) uid fee_amt WITHDRAWAL_FEE COMPLETED
                        "Withdrawal fee" None false) ;;
        save_new_ledger (settle_entry w1 uid net_amt (t_id savedTx)) ;;;
        save_new_ledger (fee_entry w1 uid fee_amt (t_id savedFeeTx)) ;;;
        ret tt
    end).

(** wallet.ts 364-463: the gateway call and the stage it selects. *)
Definition transfer_and_resolve (wallet_id uid : uuid) (accountInfo : AccountInfo)
    (amount fee_amt net_amt : Q) (savedWd : Withdrawal) (savedTx : Transaction)
    : M Response :=
  transfer <- call_initiateBankTransfer net_amt (ai_name accountInfo)
                (ai_number accountInfo) (ai_bankCode accountInfo) ;;
  if negb (tr_success transfer) || negb (is_some (tr_data transfer))
  then
    stage2A_refund wallet_id uid amount savedWd savedTx transfer ;;;
    ret (mkResponse 400 false
           (str_or (tr_message transfer) "Failed to initiate bank transfer"))
  else
    stage2B_settle wallet_id uid amount fee_amt net_amt savedWd savedTx
                   (transfer_data transfer) ;;;
    ret (mkResponse 201 true EmptyString).

(** wallet.ts 265-468, [POST /withdrawals]. *)
Definition post_withdrawals (req : WithdrawalRequest) : M Response :=
  catch_500 (
    if negb (lt 0 (wr_amount req))
    then ret (mkResponse 400 false "Validation failed")
    else
      wallet <- getWalletByUserId (wr_user req) ;;
      if lt (balance wallet) (wr_amount req)
      then ret (mkResponse 400 false "Insufficient balance")
      else
        resolved <- resolve_account req ;;
        match resolved with
        | inl r => ret r
        | inr accountInfo =>
            let amount := wr_amount req in
            savedTx <- stage1_hold (w_id wallet) (wr_user req) amount ;;
            savedWd <- create_withdrawal (wr_user req) accountInfo amount
                         (fee amount) (net amount) savedTx ;;
            transfer_and_resolve (w_id wallet) (wr_user req) accountInfo amount
                                 (fee amount) (net amount) savedWd savedTx
        end).

End Handlers.
(* ------------------------------------------------------------------ *)
(** ** One wallet and its ledger, step by step *)

(** What replaying the ledger reads of a row. *)
Record Line : Type := mkLine {
  ln_type : EntryType;
  ln_amount : Q;
  ln_balance_after : Q;
  ln_context : string
}.

Definition line_of (l : WalletLedger) : Line :=
  mkLine (entry_type l) (l_amount l) (balance_after l) (context l).





(** A wallet with the ledger rows written for it. *)
Record Account : Type := mkAccount {
  acct_wallet : Wallet;
  acct_ledger : list Line
}.

(** The committed steps that change a wallet. *)
Inductive Op : Type :=
| OpDeposit (amount : Q)      (* deposits/verify, either path *)
| OpHold (amount : Q)         (* withdrawals, stage 1 *)
| OpRefund (amount : Q)       (* withdrawals, stage 2A *)
| OpSettle (amount : Q)       (* withdrawals, stage 2B *)
| OpWithdraw (amount : Q)     (* walletService.withdrawFunds *)
| OpTransferOut (amount : Q)  (* walletService.transferFunds, sender *)
| OpTransferIn (amount : Q).  (* walletService.transferFunds, receiver *)


(** One step on an account: the wallet update and the ledger rows of the
    code block, or the error it throws. *)
Definition apply_op (op : Op) (a : Account) : Outcome Account :=
  let w := acct_wallet a in
  let uid := w_user_id w in
  match op with
  | OpDeposit amount =>
      let w1 := credit_wallet w amount in
      Ok (mkAccount w1
            (acct_ledger a ++ [line_of (deposit_entry w1 uid amount None 0 0)]))
  | OpHold amount =>
      if lt (balance w) amount then Thrown "Insufficient balance"
      else
        let w1 := hold_wallet w amount in
        Ok (mkAccount w1
              (acct_ledger a ++ [line_of (hold_entry w1 uid amount 0 0)]))
  | OpRefund amount =>
      let w1 := refund_wallet w amount in
      Ok (mkAccount w1
            (acct_ledger a ++ [line_of (refund_entry w1 uid amount 0 0)]))
  | OpSettle amount =>
      let w1 := settle_wallet w amount in
      Ok (mkAccount w1
            (acct_ledger a
             ++ [line_of (settle_entry w1 uid (net amount) 0 0);
                 line_of (fee_entry w1 uid (fee amount) 0 0)]))
  | OpWithdraw amount =>
      if lt (balance w) amount then Thrown "Insufficient balance"
      else Ok (mkAccount (with_balance w (balance w - amount)) (acct_ledger a))
  | OpTransferOut amount =>
      if lt (balance w) amount then Thrown "Insufficient balance"
      else Ok (mkAccount (with_balance w (balance w - amount)) (acct_ledger a))
  | OpTransferIn amount =>
      Ok (mkAccount (with_balance w (balance w + amount)) (acct_ledger a))
  end.

(** A step that throws commits nothing. *)
Definition step (op : Op) (a : Account) : Account :=
  match apply_op op a with
  | Ok a1 => a1
  | Thrown _ => a
  end.


(** The account after the whole sequence. *)
Definition run (ops : list Op) (a : Account) : Account :=
  fold_left (fun acc op => step op acc) ops a.



(** The account of wallet [wid] in a database. *)
Definition account_of (d : DB) (wid : uuid) : option Account :=
  match find_by_id w_id wid (wallets d) with
  | Some w =>
      Some (mkAccount w
              (map line_of
                 (filter (fun l => Nat.eqb (l_wallet_id l) wid) (wallet_ledger d))))
  | None => None
  end.

Definition no_faults (env : Env) : Prop :=
  forall n : nat, write_fails env n = false.

(* ------------------------------------------------------------------ *)
(** ** The committed effect of each transaction of the withdrawal route *)

(** The hold transaction row: wallet.ts 323-330. *)
Definition hold_tx (d : DB) (w : Wallet) (uid : uuid) (amount : Q) : Transaction :=
  mkTransaction (fresh_id t_id (transactions d)) (w_id w) uid amount
                WITHDRAWAL PENDING "Withdrawal hold placed" None false.

(** The database after a committed stage 1 that found wallet [w]. *)
Definition hold_db (d : DB) (w : Wallet) (uid : uuid) (amount : Q) : DB :=
  mkDB (users d)
       (upsert w_id (hold_wallet w amount) (wallets d))
       (transactions d ++ [hold_tx d w uid amount])
       (wallet_ledger d
        ++ [hold_entry (hold_wallet w amount) uid amount
              (t_id (hold_tx d w uid amount)) (fresh_id l_id (wallet_ledger d))])
       (withdrawals d)
       (bank_accounts d).

(** The withdrawal row of wallet.ts 350-362. *)
Definition processing_wd (d : DB) (uid : uuid) (accountInfo : AccountInfo)
    (amount : Q) (tx : Transaction) : Withdrawal :=
  mkWithdrawal (fresh_id wd_id (withdrawals d)) uid
               (ai_name accountInfo) (ai_number accountInfo)
               (ai_bankName accountInfo) (ai_bankCode accountInfo)
               amount (fee amount) (net amount) "NGN" "processing" None None
               (Some (t_id tx)) false.

(** The database after a committed stage 2A that found wallet [w]. *)
Definition refund_db (d : DB) (w : Wallet) (uid : uuid) (amount : Q)
    (savedWd : Withdrawal) (savedTx : Transaction) (transfer : TransferResult) : DB :=
  mkDB (users d)
       (upsert w_id (refund_wallet w amount) (wallets d))
       (upsert t_id
          (tx_with_status savedTx FAILED "Withdrawal failed (refunded)" (t_verified savedTx))
          (transactions d))
       (wallet_ledger d
        ++ [refund_entry (refund_wallet w amount) uid amount (t_id savedTx)
              (fresh_id l_id (wallet_ledger d))])
       (upsert wd_id
          (wd_failed savedWd (str_or (tr_message transfer) "Transfer initiation failed"))
          (withdrawals d))
       (bank_accounts d).

(** The fee transaction row: wallet.ts 426-433, keyed after the update
    of the hold transaction. *)
Definition fee_tx (ts : list Transaction) (w : Wallet) (uid : uuid) (fee_amt : Q)
    : Transaction :=
  mkTransaction (fresh_id t_id ts) (w_id w) uid fee_amt
                WITHDRAWAL_FEE COMPLETED "Withdrawal fee" None false.

(** The database after a committed stage 2B that found wallet [w]. *)
Definition settle_db (d : DB) (w : Wallet) (uid : uuid) (amount fee_amt net_amt : Q)
    (savedWd : Withdrawal) (savedTx : Transaction) (data : TransferData) : DB :=
  let ts := upsert t_id
              (tx_with_status savedTx COMPLETED "Withdrawal completed" (t_verified savedTx))
              (transactions d) in
  let w1 := settle_wallet w amount in
  mkDB (users d)
       (upsert w_id w1 (wallets d))
       (ts ++ [fee_tx ts w1 uid fee_amt])
       (wallet_ledger d
        ++ [settle_entry w1 uid net_amt (t_id savedTx) (fresh_id l_id (wallet_ledger d));
            fee_entry w1 uid fee_amt (t_id (fee_tx ts w1 uid fee_amt))
              (S (fresh_id l_id (wallet_ledger d)))])
       (upsert wd_id
          (wd_completed savedWd (first_truthy (transfer_code data) (td_reference data)))
          (withdrawals d))
       (bank_accounts d).

(** The wallet [createWallet] inserts: walletService.ts 46-51. *)
Definition created_wallet (d : DB) (uid : uuid) : Wallet :=
  mkWallet (fresh_id w_id (wallets d)) uid 0 0 0 0 "USD".

(** The database once [getWalletByUserId] returned: as before, or with
    the wallet it created. *)
Definition after_wallet_lookup (d d0 : DB) (uid : uuid) : Prop :=
  d0 = d \/ d0 = with_wallets d (wallets d ++ [created_wallet d uid]).

(** The database the gateway is called on: the hold committed and the
    withdrawal row written. *)
Definition held_db (d0 : DB) (w : Wallet) (uid : uuid) (accountInfo : AccountInfo)
    (amount : Q) : DB :=
  let d1 := hold_db d0 w uid amount in
  with_withdrawals d1
    (withdrawals d1
     ++ [processing_wd d1 uid accountInfo amount (hold_tx d0 w uid amount)]).

(** [!transfer.success || !transfer.data], wallet.ts 366. *)
Definition transfer_failed (transfer : TransferResult) : bool :=
  negb (tr_success transfer) || negb (is_some (tr_data transfer)).

(** The worlds a run of [POST /withdrawals] from [s] can end in: the hold
    was not committed; or it was, on a wallet [w] of the database [d0]
    left by the wallet lookup, and then the withdrawal row failed, or the
    gateway was called on the held database and stage 2 rolled back,
    refunded or settled. *)
Definition withdrawal_outcome (env : Env) (req : WithdrawalRequest)
    (s s1 : World) : Prop :=
  let uid := wr_user req in
  let amount := wr_amount req in
  (transfer_calls s1 = transfer_calls s /\ after_wallet_lookup (db s) (db s1) uid)
  \/
  exists (d0 : DB) (w : Wallet) (accountInfo : AccountInfo),
    after_wallet_lookup (db s) d0 uid /\
    find_by_id w_id (w_id w) (wallets d0) = Some w /\
    lt (balance w) amount = false /\
    let savedTx := hold_tx d0 w uid amount in
    let savedWd := processing_wd (hold_db d0 w uid amount) uid accountInfo amount savedTx in
    let d1 := held_db d0 w uid accountInfo amount in
    let transfer := initiateBankTransfer env (net amount) (ai_name accountInfo)
                      (ai_number accountInfo) (ai_bankCode accountInfo) in
    ((transfer_calls s1 = transfer_calls s
      /\ db s1 = hold_db d0 w uid amount
      /\ exists n : nat, write_fails env n = true)
     \/
     (transfer_calls s1 = transfer_calls s ++ [(net amount, d1)]
      /\ ((db s1 = d1 /\ exists n : nat, write_fails env n = true)
          \/ (transfer_failed transfer = true
              /\ db s1 = refund_db d1 (hold_wallet w amount) uid amount
                           savedWd savedTx transfer)
          \/ (transfer_failed transfer = false
              /\ db s1 = settle_db d1 (hold_wallet w amount) uid amount
                           (fee amount) (net amount) savedWd savedTx
                           (transfer_data transfer))))).

(* ------------------------------------------------------------------ *)
(** ** A small database for worked examples *)

(** User 7 with one saved bank account. *)
Definition ex_account : BankAccount :=
  mkBankAccount 1 7 "Ada Obi" "0123456789" "Access Bank" "044".

Definition ex_wallet (b p : Q) : Wallet := mkWallet 1 7 b p b 0 "USD".

Definition ex_db (b p : Q) : DB :=
  mkDB [7%nat] [ex_wallet b p] [] [] [] [ex_account].

Definition ex_world (b p : Q) : World := mkWorld (ex_db b p) 0 [].

Definition gateway_accepts : TransferResult :=
  mkTransferResult true (Some (mkTransferData (Some "ref_1"%string) (Some "TRF_1"%string))) None.

Definition gateway_refuses : TransferResult :=
  mkTransferResult false None (Some "Transfer service unavailable"%string).

(** The gateway verifies every reference as a payment of 100000 kobo. *)
Definition ex_env (fails : nat -> bool) (transfer : TransferResult) : Env :=
  mkEnv fails
        (fun _ => mkVerifyResult true true (Some (mkVerifyData (Some 100000))) None)
        (fun _ _ _ _ => transfer).

Definition never : nat -> bool := fun _ => false.

(** A withdrawal to the saved account. *)
Definition ex_withdraw (amount : Q) : WithdrawalRequest :=
  mkWithdrawalRequest 7 amount (Some 1%nat) None None None None.

(** The same user after [POST /deposits/init] of 1000: an empty wallet
    and a pending deposit under reference R1. *)
Definition ex_pending_deposit : Transaction :=
  mkTransaction 1 1 7 1000 DEPOSIT PENDING "Wallet deposit initiated"
                (Some "R1"%string) false.

Definition ex_deposit_db : DB :=
  mkDB [7%nat] [ex_wallet 0 0] [ex_pending_deposit] [] [] [ex_account].

Definition ex_verify : VerifyRequest := mkVerifyRequest 7 "R1" None.

(** A withdrawal of 400 held on a balance of 1000, its rows as stage 1
    and the route write them. *)
Definition ex_hold_tx : Transaction :=
  hold_tx (ex_db 1000 0) (ex_wallet 1000 0) 7 400.

Definition ex_processing_wd : Withdrawal :=
  processing_wd (ex_db 1000 0) 7
    (mkAccountInfo "Ada Obi" "0123456789" "Access Bank" "044") 400 ex_hold_tx.

Definition ex_held_world : World :=
  mkWorld (held_db (ex_db 1000 0) (ex_wallet 1000 0) 7
             (mkAccountInfo "Ada Obi" "0123456789" "Access Bank" "044") 400)
          5 [].

(** The rows of context "withdrawal_refund". *)
Definition refund_rows (ls : list WalletLedger) : list WalletLedger :=
  filter (fun l => String.eqb (context l) "withdrawal_refund") ls.




(** The request with [expectedAmount] left out. *)
Definition without_expected (req : VerifyRequest) : VerifyRequest :=
  mkVerifyRequest (vr_user req) (vr_reference req) None.

(** [!verify.success || !verify.verified || !verify.data] is false. *)
Definition verified_ok (verify : VerifyResult) : bool :=
  v_success verify && v_verified verify && is_some (v_data verify).

(** A verification that sends [expectedAmount: 0]. *)
Definition ex_verify_zero : VerifyRequest := mkVerifyRequest 7 "R1" (Some 0).



(* ------------------------------------------------------------------ *)
(** ** The request as the middleware and JSON hand it to the handler *)

(** The members of [UserType] that the routes name (the enum itself is
    declared in [src/types], which is not among the sources). *)
Inductive UserType : Type := BRAND | CREATOR | ADMIN.

Definition user_type_eqb (a b : UserType) : bool :=
  match a, b with
  | BRAND, BRAND | CREATOR, CREATOR | ADMIN, ADMIN => true
  | _, _ => false
  end.

(** [req.user]: the payload of the token, signed at registration or
    login with the user's id and type. *)
Record AuthUser : Type := mkAuthUser {
  au_id : uuid;
  au_type : UserType
}.

(** The [Authorization] header: absent, a token [jwt.verify] refuses, or
    a token it decodes. *)
Inductive Credentials : Type :=
| NoToken
| BadToken
| Token (user : AuthUser).

(** middleware/auth.ts 16-37, [authenticate]: the answer it sends, or
    the user it sets before [next()]. *)
Definition authenticate (c : Credentials) : Response + AuthUser :=
  match c with
  | NoToken => inl (mkResponse 401 false "Access denied. No token provided.")
  | BadToken => inl (mkResponse 401 false "Invalid token.")
  | Token user => inr user
  end.

(** middleware/auth.ts 56-73, [authorize(...userTypes)]: the answer it
    sends, or [None] for [next()]. *)
Definition authorize (userTypes : list UserType) (user : option AuthUser)
    : option Response :=
  match user with
  | None => Some (mkResponse 401 false "Access denied. User not authenticated.")
  | Some u =>
      if existsb (user_type_eqb (au_type u)) userTypes then None
      else Some (mkResponse 403 false "Access denied. Insufficient permissions.")
  end.

(** [req.body.amount]. The validators [isNumeric().isFloat({ gt: 0 })]
    check the value and do not convert it: a JSON number reaches the
    handler as a number and a JSON string as a string. *)
Inductive BodyAmount : Type :=
| AsNumber (q : Q)
| AsString (s : string).

Module Coerce.

Definition is_digit (c : ascii) : bool :=
  Nat.leb 48 (nat_of_ascii c) && Nat.leb (nat_of_ascii c) 57.

Fixpoint all_digits (s : string) : bool :=
  match s with
  | EmptyString => true
  | String c rest => is_digit c && all_digits rest
  end.

Definition nonempty (s : string) : bool :=
  match s with
  | EmptyString => false
  | String _ _ => true
  end.

(** The number a string of digits denotes, after [acc]. *)
Fixpoint digits_value (acc : Z) (s : string) : Z :=
  match s with
  | EmptyString => acc
  | String c rest =>
      digits_value (10 * acc + Z.of_nat (nat_of_ascii c - 48)) rest
  end.

(** The string before the first occurrence of [sep], and the string
    after it when there is one. *)
Fixpoint split_at (sep : ascii) (s : string) : string * option string :=
  match s with
  | EmptyString => (EmptyString, None)
  | String c rest =>
      if Ascii.eqb c sep then (EmptyString, Some rest)
      else let (a, b) := split_at sep rest in (String c a, b)
  end.

(** A leading sign: whether it is a minus, and the rest. *)
Definition strip_sign (s : string) : bool * string :=
  match s with
  | String c rest =>
      if Ascii.eqb c "+" then (false, rest)
      else if Ascii.eqb c "-" then (true, rest)
      else (false, s)
  | EmptyString => (false, s)
  end.

(** Digits, a point, digits: [None] unless both sides are digits only
    and there is a digit at all, a second point included. *)
Definition unsigned_decimal (s : string) : option Q :=
  match split_at "." s with
  | (ip, None) =>
      if all_digits ip && nonempty ip then Some (inject_Z (digits_value 0 ip))
      else None
  | (ip, Some fp) =>
      if all_digits ip && all_digits fp && (nonempty ip || nonempty fp)
      then Some (inject_Z (digits_value 0 (ip ++ fp))
                 / inject_Z (10 ^ Z.of_nat (String.length fp)))
      else None
  end.

(** validator.js [isNumeric], as [express-validator] applies it:
    [/^[+-]?([0-9]*[.])?[0-9]+$/]. *)
Definition isNumeric (s : string) : bool :=
  match split_at "." (snd (strip_sign s)) with
  | (ip, None) => all_digits ip && nonempty ip
  | (ip, Some fp) => all_digits ip && all_digits fp && nonempty fp
  end.

(** [Number(s)] on the strings met here, which hold digits, signs,
    points and the letter e only: a signed decimal with an optional
    exponent; [None] is NaN. *)
Definition number_of_string (s : string) : option Q :=
  let (neg, body) := strip_sign s in
  let (mant, expo) := split_at "e" body in
  match unsigned_decimal mant with
  | None => None
  | Some m =>
      let v := if neg then - m else m in
      match expo with
      | None => Some v
      | Some e =>
          let (eneg, ebody) := strip_sign e in
          if all_digits ebody && nonempty ebody
          then let k := digits_value 0 ebody in
               Some (if eneg then v / inject_Z (10 ^ k) else v * inject_Z (10 ^ k))
          else None
      end
  end.

(** [String(x)] when it is digits only, with a minus sign for a
    negative number: [x] is an integer below 10^21 in magnitude. Every
    other number prints with a point or an exponent; [None] stands for
    those. *)
Definition string_of_integer (x : Q) : option string :=
  let n := Qnum (Qred x) in
  if Pos.eqb (Qden (Qred x)) 1 && Z.ltb (Z.abs n) (10 ^ 21)
  then Some (NilZero.string_of_int (Z.to_int n))
  else None.

(** [String(Number.EPSILON)]. *)
Definition EPSILON_string : string := "2.220446049250313e-16".

(** [Number((x + s) + Number.EPSILON)] for a number [x] and a string
    [s]: both [+] concatenate. When [x] prints with a point or an
    exponent the concatenation has two of them and is NaN. *)
Definition plus_string_plus_EPSILON (x : Q) (s : string) : option Q :=
  match string_of_integer x with
  | Some sx => number_of_string (sx ++ s ++ EPSILON_string)
  | None => None
  end.

End Coerce.

(** The amount where the code uses it as a number: in [<], [-] and [*],
    and in the decimal columns it is saved to. *)
Definition amount_number (a : BodyAmount) : Q :=
  match a with
  | AsNumber q => q
  | AsString s =>
      match Coerce.number_of_string s with
      | Some q => q
      | None => 0
      end
  end.

(** [body('amount').isNumeric().isFloat({ gt: 0 })], wallet.ts 266. *)
Definition valid_amount (a : BodyAmount) : bool :=
  match a with
  | AsNumber q => lt 0 q
  | AsString s => Coerce.isNumeric s && lt 0 (amount_number a)
  end.

(** wallet.ts 319-320 on the amount of the body: on a string the
    subtraction converts it, and [(w.pending_balance || 0) + amount]
    concatenates. [None]: the pending balance is NaN. *)
Definition hold_wallet_body (w : Wallet) (a : BodyAmount) : option Wallet :=
  match a with
  | AsNumber q => Some (hold_wallet w q)
  | AsString s =>
      match Coerce.plus_string_plus_EPSILON (num_or (pending_balance w) 0) s with
      | Some c =>
          Some (with_pending_balance
                  (with_balance w
                     (Math_round (((balance w - amount_number a) + Number_EPSILON) * 100)
                      / 100))
                  (Math_round (c * 100) / 100))
      | None => None
      end
  end.

(** wallet.ts 374-375 on the amount of the body: on a string
    [w.balance + amount] concatenates. [None]: the balance is NaN. *)
Definition refund_wallet_body (w : Wallet) (a : BodyAmount) : option Wallet :=
  match a with
  | AsNumber q => Some (refund_wallet w q)
  | AsString s =>
      match Coerce.plus_string_plus_EPSILON (balance w) s with
      | Some c =>
          Some (with_pending_balance
                  (with_balance w (Math_round (c * 100) / 100))
                  (Math_max 0
                     (Math_round
                        (((num_or (pending_balance w) 0 - amount_number a)
                          + Number_EPSILON) * 100) / 100)))
      | None => None
      end
  end.

(** Body of [POST /withdrawals]. A missing or empty field is [None]. *)
Record WithdrawalBody : Type := mkWithdrawalBody {
  wb_amount : BodyAmount;
  wb_bank_account_id : option uuid;
  wb_bank_name : option string;
  wb_bank_code : option string;
  wb_account_number : option string;
  wb_account_name : option string
}.

(** The request of user [uid] with the amount read as a number. *)
Definition request_of (uid : uuid) (body : WithdrawalBody) : WithdrawalRequest :=
  mkWithdrawalRequest uid (amount_number (wb_amount body))
    (wb_bank_account_id body) (wb_bank_name body) (wb_bank_code body)
    (wb_account_number body) (wb_account_name body).

Definition with_total_earned (w : Wallet) (t : Q) : Wallet :=
  mkWallet (w_id w) (w_user_id w) (balance w) (pending_balance w)
           (total_deposited w) t (w_currency w).

Section Routes.

Variable env : Env.

(** [save] of a wallet whose columns are numbers; a NaN is no value of
    a decimal column, and the write is refused. *)
Definition save_wallet_number (w : option Wallet) : M Wallet :=
  match w with
  | Some w1 => save_wallet env w1
  | None =>
      fun s => (Thrown "Database write failed",
                mkWorld (db s) (S (writes s)) (transfer_calls s))
  end.

(** wallet.ts 310-348, stage 1, on the amount of the body. *)
Definition stage1_hold_body (wallet_id uid : uuid) (a : BodyAmount) : M Transaction :=
  in_transaction env (
    w <- query (fun d => find_by_id w_id wallet_id (wallets d)) ;;
    match w with
    | None => throw "Wallet not found"
    | Some w0 =>
        if lt (balance w0) (amount_number a) then throw "Insufficient balance"
        else
          w1 <- save_wallet_number (hold_wallet_body w0 a) ;;
          savedTx <- save_new_transaction env (fun i =>
            mkTransaction i (w_id w1) uid (amount_number a) WITHDRAWAL PENDING
                          "Withdrawal hold placed" None false) ;;
          save_new_ledger env (hold_entry w1 uid (amount_number a) (t_id savedTx)) ;;;
          ret savedTx
    end).

(** wallet.ts 367-402, stage 2A, on the amount of the body. *)
Definition stage2A_refund_body (wallet_id uid : uuid) (a : BodyAmount)
    (savedWd : Withdrawal) (savedTx : Transaction) (transfer : TransferResult)
    : M unit :=
  in_transaction env (
    w <- query (fun d => find_by_id w_id wallet_id (wallets d)) ;;
    match w with
    | None => throw "Wallet not found"
    | Some w0 =>
        w1 <- save_wallet_number (refund_wallet_body w0 a) ;;
        save_withdrawal env
          (wd_failed savedWd (str_or (tr_message transfer) "Transfer initiation failed")) ;;;
        save_transaction env
          (tx_with_status savedTx FAILED "Withdrawal failed (refunded)" (t_verified savedTx)) ;;;
        save_new_ledger env (refund_entry w1 uid (amount_number a) (t_id savedTx)) ;;;
        ret tt
    end).

(** wallet.ts 364-463 on the amount of the body; the settlement only
    subtracts the amount, which converts a string. *)
Definition transfer_and_resolve_body (wallet_id uid : uuid) (accountInfo : AccountInfo)
    (a : BodyAmount) (fee_amt net_amt : Q) (savedWd : Withdrawal)
    (savedTx : Transaction) : M Response :=
  transfer <- call_initiateBankTransfer env net_amt (ai_name accountInfo)
                (ai_number accountInfo) (ai_bankCode accountInfo) ;;
  if negb (tr_success transfer) || negb (is_some (tr_data transfer))
  then
    stage2A_refund_body wallet_id uid a savedWd savedTx transfer ;;;
    ret (mkResponse 400 false
           (str_or (tr_message transfer) "Failed to initiate bank transfer"))
  else
    stage2B_settle env wallet_id uid (amount_number a) fee_amt net_amt savedWd savedTx
                   (transfer_data transfer) ;;;
    ret (mkResponse 201 true EmptyString).

(** wallet.ts 272-468: the handler of [POST /withdrawals] on the body as
    it came. On a number it is [post_withdrawals]
    ([withdrawals_handler_on_number]). *)
Definition withdrawals_handler (uid : uuid) (body : WithdrawalBody) : M Response :=
  catch_500 (
    if negb (valid_amount (wb_amount body))
    then ret (mkResponse 400 false "Validation failed")
    else
      wallet <- getWalletByUserId env uid ;;
      if lt (balance wallet) (amount_number (wb_amount body))
      then ret (mkResponse 400 false "Insufficient balance")
      else
        resolved <- resolve_account (request_of uid body) ;;
        match resolved with
        | inl r => ret r
        | inr accountInfo =>
            let amount := amount_number (wb_amount body) in
            savedTx <- stage1_hold_body (w_id wallet) uid (wb_amount body) ;;
            savedWd <- create_withdrawal env uid accountInfo amount
                         (fee amount) (net amount) savedTx ;;
            transfer_and_resolve_body (w_id wallet) uid accountInfo (wb_amount body)
                                      (fee amount) (net amount) savedWd savedTx
        end).

(** wallet.ts 265: [router.post('/withdrawals', authenticate,
    authorize(UserType.CREATOR), [...], handler)]. *)
Definition withdrawals_route (c : Credentials) (body : WithdrawalBody) : M Response :=
  match authenticate c with
  | inl r => ret r
  | inr user =>
      match authorize [CREATOR] (Some user) with
      | Some r => ret r
      | None => withdrawals_handler (au_id user) body
      end
  end.

(** wallet.ts 89: [router.post('/deposits/verify', authenticate,
    authorize(UserType.BRAND), [...], handler)]. *)
Definition deposits_verify_route (c : Credentials) (reference : string)
    (expectedAmount : option Q) : M Response :=
  match authenticate c with
  | inl r => ret r
  | inr user =>
      match authorize [BRAND] (Some user) with
      | Some r => ret r
      | None =>
          post_deposits_verify env (mkVerifyRequest (au_id user) reference expectedAmount)
      end
  end.

(** contestService.ts 539-557, the prize of one winner in
    [completeContest]: the balance and the earned total go up, a
    CONTEST_PRIZE transaction is saved, and no ledger row is written. A
    winner without a wallet is skipped. *)
Definition credit_prize (winner : uuid) (amount : Q) (description : string) : M unit :=
  winnerWallet <- query (fun d =>
    find (fun w => Nat.eqb (w_user_id w) winner) (wallets d)) ;;
  match winnerWallet with
  | None => ret tt
  | Some w =>
      save_wallet env
        (with_total_earned (with_balance w (balance w + amount))
                           (total_earned w + amount)) ;;;
      save_new_transaction env (fun i =>
        mkTransaction i (w_id w) winner amount CONTEST_PRIZE COMPLETED
                      description None false) ;;;
      ret tt
  end.

End Routes.

(* ------------------------------------------------------------------ *)
(** ** Every way a withdrawal request can end *)





(* ------------------------------------------------------------------ *)
(** ** A creator paid by a contest, for worked examples *)

(** User 7 as a creator and as a brand. *)
Definition ex_creator : AuthUser := mkAuthUser 7 CREATOR.

Definition ex_brand : AuthUser := mkAuthUser 7 BRAND.

(** User 7 after registration: an empty wallet and one saved bank
    account. *)
Definition ex_registered : World := ex_world 0 0.

(** The world after user 7 won a prize of 1000. *)
Definition ex_prize_world (fails : nat -> bool) (transfer : TransferResult) : World :=
  snd (credit_prize (ex_env fails transfer) 7 1000 "Contest prize" ex_registered).

(** A withdrawal body naming the saved account. *)
Definition ex_body (a : BodyAmount) : WithdrawalBody :=
  mkWithdrawalBody a (Some 1%nat) None None None None.

(** Users 7 and 8, each with a wallet: 1000 and nothing. *)
Definition ex_two_users : World :=
  mkWorld (mkDB [7%nat; 8%nat] [ex_wallet 1000 0; mkWallet 2 8 0 0 0 0 "USD"]
                [] [] [] [ex_account])
          0 [].
(* ------------------------------------------------------------------ *)
(** ** Facts about rounding *)

#[global] Instance Math_round_Proper : Proper (Qeq ==> Qeq) Math_round.
Proof.
  intros x y Hxy. unfold Math_round.
  assert (E : x + (1 # 2) == y + (1 # 2)) by (rewrite Hxy; reflexivity).
  rewrite (Qfloor_comp _ _ E). reflexivity.
Qed.

Lemma Math_round_lower (x : Q) : x - (1 # 2) < Math_round x.
Proof.
  unfold Math_round.
  pose proof (Qlt_floor (x + (1 # 2))) as H.
  rewrite inject_Z_plus in H. change (inject_Z 1) with 1 in H. lra.
Qed.

Lemma Math_round_upper (x : Q) : Math_round x <= x + (1 # 2).
Proof. unfold Math_round. apply Qfloor_le. Qed.






Lemma whole_cents_round2 (x : Q) : whole_cents (round2 x).
Proof. exists (Qfloor (x * 100 + (1 # 2))). reflexivity. Qed.

(** [round2 x] is a whole number of cents within half a cent of [x]. *)
Lemma round2_nearest_cent (x : Q) :
  whole_cents (round2 x) /\ x - (1 # 200) < round2 x /\ round2 x <= x + (1 # 200).
Proof.
  split; [apply whole_cents_round2|].
  unfold round2.
  pose proof (Qlt_floor (x * 100 + (1 # 2))) as Hlt.
  pose proof (Qfloor_le (x * 100 + (1 # 2))) as Hle.
  rewrite inject_Z_plus in Hlt. change (inject_Z 1) with 1 in Hlt.
  set (k := inject_Z (Qfloor (x * 100 + (1 # 2)))) in *.
  split.
  - apply Qlt_shift_div_l; [reflexivity|]. lra.
  - apply Qle_shift_div_r; [reflexivity|]. lra.
Qed.

(* ------------------------------------------------------------------ *)
(** ** The fee schedule *)

(** C3. The fee and the net amount the withdrawal route computes, at the
    two worked amounts of the fee schedule and at two amounts in whole
    kobo whose 2.5 percent falls on half a kobo. For 10000 the fee is
    350 and the net amount 9650; for 50 the fee is 101.25 and the net
    amount 0. For 160.60, round(160.60 * 0.025, 2 decimals) + 100 is
    104.02 and the net amount of that fee is 56.58, while the code's
    product [amount * 0.025 * 100] is a double below 401.5, so it
    computes the fee 104.01 and the net amount 56.59; for 1.40 the fee
    by the formula is 100.04 and the code computes 100.03. *)
Theorem fee_at_half_kobo_ties :
  (fee 10000 == 350 /\ net 10000 == 9650) /\
  (fee 50 == 101.25 /\ net 50 == 0) /\
  (round2 (160.6 * 0.025) + 100 == 104.02 /\
   Qmax 0 (round2 (160.6 - 104.02)) == 56.58 /\
   Double.mul (Double.mul (Double.fl 160.6) (Double.fl 0.025)) 100 < 401.5 /\
   fee 160.6 == Double.fl 104.01 /\ Math_round (fee 160.6 * 100) == 10401 /\
   net 160.6 == Double.fl 56.59 /\ Math_round (net 160.6 * 100) == 5659) /\
  (round2 (1.4 * 0.025) + 100 == 100.04 /\
   Double.mul (Double.mul (Double.fl 1.4) (Double.fl 0.025)) 100 < 3.5 /\
   fee 1.4 == Double.fl 100.03 /\ Math_round (fee 1.4 * 100) == 10003).
Proof.
  repeat split; vm_compute; reflexivity.
Qed.

(** The other roundings of the withdrawal route add Number.EPSILON
    before they scale to cents. On the fee of 1.40 that guard lifts the
    product over the tie; on the fee of 160.60 it is absorbed by the
    rounding of the sum and the product stays below 401.5. *)
Remark epsilon_guard_at_half_kobo :
  Math_round
    (Double.mul
       (Double.add (Double.mul (Double.fl 1.4) (Double.fl 0.025))
                   (Double.fl Number_EPSILON)) 100) == 4 /\
  Math_round
    (Double.mul
       (Double.add (Double.mul (Double.fl 160.6) (Double.fl 0.025))
                   (Double.fl Number_EPSILON)) 100) == 401.
Proof. split; vm_compute; reflexivity. Qed.
(* ------------------------------------------------------------------ *)
(** ** Facts about the JavaScript tests *)

Lemma lt_true_iff (a b : Q) : lt a b = true <-> a < b.
Proof.
  unfold lt. rewrite negb_true_iff.
  destruct (Qle_bool b a) eqn:E.
  - apply Qle_bool_iff in E. split; [discriminate | intros H; lra].
  - split; [intros _ | reflexivity].
    apply Qnot_le_lt. intros H. apply Qle_bool_iff in H. congruence.
Qed.

Lemma lt_false_iff (a b : Q) : lt a b = false <-> b <= a.
Proof.
  unfold lt. rewrite negb_false_iff. apply Qle_bool_iff.
Qed.



Lemma Math_max_nonneg (x : Q) : 0 <= Math_max 0 x.
Proof. unfold Math_max. apply Q.le_max_l. Qed.

(* ------------------------------------------------------------------ *)
(** ** No negative balances *)








(** Stage 1 on the database: with too small a balance the transaction
    throws and leaves every table as it was. *)
Lemma stage1_hold_insufficient (env : Env) (s : World) (wid uid : uuid)
    (w : Wallet) (amount : Q) :
  find_by_id w_id wid (wallets (db s)) = Some w ->
  balance w < amount ->
  stage1_hold env wid uid amount s = (Thrown "Insufficient balance", s).
Proof.
  intros Hfind Hlt. apply lt_true_iff in Hlt.
  unfold stage1_hold, in_transaction, bind, query. rewrite Hfind, Hlt.
  unfold throw. destruct s; reflexivity.
Qed.


(* ------------------------------------------------------------------ *)
(** ** Facts about tables *)

Section TableFacts.

Context {R : Type} (key : R -> uuid).

Lemma find_by_id_key (i : uuid) (tbl : list R) (r : R) :
  find_by_id key i tbl = Some r -> key r = i.
Proof.
  unfold find_by_id. intros H. apply find_some in H.
  destruct H as [_ H]. apply Nat.eqb_eq in H. exact H.
Qed.

Lemma fresh_id_bound (tbl : list R) (r : R) :
  In r tbl -> (key r < fresh_id key tbl)%nat.
Proof.
  unfold fresh_id. induction tbl as [|x tbl IH]; simpl; [contradiction|].
  intros [E | Hin]; [subst; lia | specialize (IH Hin); lia].
Qed.

Lemma fresh_id_absent (tbl : list R) :
  existsb (fun x => Nat.eqb (key x) (fresh_id key tbl)) tbl = false.
Proof.
  destruct (existsb _ tbl) eqn:E; [|reflexivity].
  apply existsb_exists in E. destruct E as [x [Hin Hx]].
  apply Nat.eqb_eq in Hx. pose proof (fresh_id_bound tbl x Hin). lia.
Qed.

(** Saving an entity under a generated key appends it. *)
Lemma upsert_fresh (tbl : list R) (r : R) :
  key r = fresh_id key tbl -> upsert key r tbl = tbl ++ [r].
Proof.
  intros E. unfold upsert. rewrite E, fresh_id_absent. reflexivity.
Qed.

Lemma fresh_id_app (tbl : list R) (r : R) :
  key r = fresh_id key tbl -> fresh_id key (tbl ++ [r]) = S (fresh_id key tbl).
Proof.
  intros E. unfold fresh_id in *. f_equal.
  rewrite fold_right_app. simpl. rewrite E.
  assert (G : forall (l : list R) (a : nat),
             fold_right (fun r0 m => Nat.max (key r0) m) a l
             = Nat.max a (fold_right (fun r0 m => Nat.max (key r0) m) 0%nat l)).
  { induction l as [|x l IH]; intros a; simpl; [lia|]. rewrite IH. lia. }
  rewrite G. lia.
Qed.

(** After [save], the entity is what a lookup by its key returns. *)
Lemma find_by_id_upsert (tbl : list R) (r : R) :
  find_by_id key (key r) (upsert key r tbl) = Some r.
Proof.
  unfold upsert, find_by_id.
  destruct (existsb (fun x => Nat.eqb (key x) (key r)) tbl) eqn:E.
  - induction tbl as [|x tbl IH]; simpl in *; [discriminate|].
    destruct (Nat.eqb (key x) (key r)) eqn:Ex; simpl.
    + rewrite Nat.eqb_refl. reflexivity.
    + rewrite Ex. apply IH. exact E.
  - induction tbl as [|x tbl IH]; simpl in *.
    + rewrite Nat.eqb_refl. reflexivity.
    + apply orb_false_iff in E. destruct E as [Ex E].
      rewrite Ex. apply IH. exact E.
Qed.

(** [save] keeps the rows under other keys. *)
Lemma find_by_id_upsert_other (tbl : list R) (r : R) (i : uuid) :
  i <> key r -> find_by_id key i (upsert key r tbl) = find_by_id key i tbl.
Proof.
  intros Hne. unfold upsert, find_by_id.
  assert (Hr : Nat.eqb (key r) i = false) by (apply Nat.eqb_neq; congruence).
  destruct (existsb (fun x => Nat.eqb (key x) (key r)) tbl).
  - induction tbl as [|x tbl IH]; simpl; [reflexivity|].
    destruct (Nat.eqb (key x) (key r)) eqn:Ex.
    + rewrite Hr. apply Nat.eqb_eq in Ex.
      assert (Hx : Nat.eqb (key x) i = false) by (apply Nat.eqb_neq; congruence).
      rewrite Hx. exact IH.
    + destruct (Nat.eqb (key x) i); [reflexivity | exact IH].
  - induction tbl as [|x tbl IH]; simpl.
    + rewrite Hr. reflexivity.
    + destruct (Nat.eqb (key x) i); [reflexivity | exact IH].
Qed.

(** Every row after [save] is the saved entity or a row from before. *)
Lemma in_upsert (tbl : list R) (r x : R) :
  In x (upsert key r tbl) -> x = r \/ (In x tbl /\ key x <> key r).
Proof.
  unfold upsert.
  destruct (existsb (fun y => Nat.eqb (key y) (key r)) tbl) eqn:E.
  - intros H. apply in_map_iff in H. destruct H as [y [Hy Hin]].
    destruct (Nat.eqb (key y) (key r)) eqn:Ey.
    + left. congruence.
    + right. subst y. split; [exact Hin | apply Nat.eqb_neq; exact Ey].
  - intros H. apply in_app_or in H. destruct H as [Hin | [Hx | []]].
    + right. split; [exact Hin|].
      intros Hk. assert (Ht : existsb (fun y => Nat.eqb (key y) (key r)) tbl = true).
      { apply existsb_exists. exists x. split; [exact Hin | apply Nat.eqb_eq; exact Hk]. }
      congruence.
    + left. congruence.
Qed.


End TableFacts.
(* ------------------------------------------------------------------ *)
(** ** What each transaction of the withdrawal route commits *)

Ltac run_monad :=
  unfold in_transaction, save_new_ledger, save_new_transaction,
    save_new_withdrawal, save_new_wallet, save_ledger, save_transaction,
    save_withdrawal, save_wallet, bind, query, ret, throw, db_write;
  simpl.

Ltac fault_case :=
  split; [reflexivity | split; [reflexivity | solve [eauto 6]]].

Ltac case_write env :=
  match goal with
  | |- context [write_fails env ?n] =>
      let E := fresh "Hw" in destruct (write_fails env n) eqn:E; simpl
  end.

(** Stage 1 is all or nothing: it throws and leaves the tables as they
    were, or returns the hold transaction with the wallet update, the
    transaction row and the ledger row all committed. It never calls the
    gateway. *)
Lemma stage1_hold_spec (env : Env) (s : World) (wid uid : uuid) (amount : Q) :
  transfer_calls (snd (stage1_hold env wid uid amount s)) = transfer_calls s /\
  match fst (stage1_hold env wid uid amount s) with
  | Thrown _ =>
      db (snd (stage1_hold env wid uid amount s)) = db s /\
      (find_by_id w_id wid (wallets (db s)) = None
       \/ (exists w : Wallet,
             find_by_id w_id wid (wallets (db s)) = Some w
             /\ lt (balance w) amount = true)
       \/ exists n : nat, write_fails env n = true)
  | Ok tx =>
      exists w : Wallet,
        find_by_id w_id wid (wallets (db s)) = Some w /\
        lt (balance w) amount = false /\
        tx = hold_tx (db s) w uid amount /\
        db (snd (stage1_hold env wid uid amount s)) = hold_db (db s) w uid amount
  end.
Proof.
  unfold stage1_hold. run_monad.
  destruct (find_by_id w_id wid (wallets (db s))) as [w|] eqn:Hfind; simpl;
    [|fault_case].
  destruct (lt (balance w) amount) eqn:Hlt; simpl; [fault_case|].
  repeat (case_write env; try fault_case).
  split; [reflexivity|].
  exists w. split; [reflexivity|]. split; [exact Hlt|]. split; [reflexivity|].
  unfold hold_db, hold_tx, with_wallet_ledger, with_transactions, with_wallets. simpl.
  rewrite (upsert_fresh t_id), (upsert_fresh l_id) by reflexivity. reflexivity.
Qed.

(** The withdrawal row is one write of its own: it lands or it throws
    and changes nothing. *)
Lemma create_withdrawal_spec (env : Env) (s : World) (uid : uuid)
    (accountInfo : AccountInfo) (amount : Q) (tx : Transaction) :
  let r := create_withdrawal env uid accountInfo amount (fee amount) (net amount) tx s in
  transfer_calls (snd r) = transfer_calls s /\
  match fst r with
  | Thrown _ => db (snd r) = db s /\ exists n : nat, write_fails env n = true
  | Ok wd =>
      wd = processing_wd (db s) uid accountInfo amount tx /\
      db (snd r) = with_withdrawals (db s) (withdrawals (db s) ++ [wd])
  end.
Proof.
  unfold create_withdrawal. run_monad.
  case_write env; [fault_case|].
  split; [reflexivity|]. split; [reflexivity|].
  rewrite (upsert_fresh wd_id) by reflexivity. reflexivity.
Qed.

(** Stage 2A is all or nothing. *)
Lemma stage2A_refund_spec (env : Env) (s : World) (wid uid : uuid) (amount : Q)
    (savedWd : Withdrawal) (savedTx : Transaction) (transfer : TransferResult) :
  let r := stage2A_refund env wid uid amount savedWd savedTx transfer s in
  transfer_calls (snd r) = transfer_calls s /\
  match fst r with
  | Thrown _ =>
      db (snd r) = db s /\
      (find_by_id w_id wid (wallets (db s)) = None
       \/ exists n : nat, write_fails env n = true)
  | Ok _ =>
      exists w : Wallet,
        find_by_id w_id wid (wallets (db s)) = Some w /\
        db (snd r) = refund_db (db s) w uid amount savedWd savedTx transfer
  end.
Proof.
  unfold stage2A_refund. run_monad.
  destruct (find_by_id w_id wid (wallets (db s))) as [w|] eqn:Hfind; simpl;
    [|fault_case].
  repeat (case_write env; try fault_case).
  split; [reflexivity|].
  exists w. split; [reflexivity|].
  unfold refund_db, with_wallet_ledger, with_transactions, with_wallets,
    with_withdrawals. simpl.
  rewrite (upsert_fresh l_id) by reflexivity. reflexivity.
Qed.

(** Stage 2B is all or nothing. *)
Lemma stage2B_settle_spec (env : Env) (s : World) (wid uid : uuid)
    (amount fee_amt net_amt : Q) (savedWd : Withdrawal) (savedTx : Transaction)
    (data : TransferData) :
  let r := stage2B_settle env wid uid amount fee_amt net_amt savedWd savedTx data s in
  transfer_calls (snd r) = transfer_calls s /\
  match fst r with
  | Thrown _ =>
      db (snd r) = db s /\
      (find_by_id w_id wid (wallets (db s)) = None
       \/ exists n : nat, write_fails env n = true)
  | Ok _ =>
      exists w : Wallet,
        find_by_id w_id wid (wallets (db s)) = Some w /\
        db (snd r) = settle_db (db s) w uid amount fee_amt net_amt savedWd savedTx data
  end.
Proof.
  unfold stage2B_settle. run_monad.
  destruct (find_by_id w_id wid (wallets (db s))) as [w|] eqn:Hfind; simpl;
    [|fault_case].
  repeat (case_write env; try fault_case).
  split; [reflexivity|].
  exists w. split; [reflexivity|].
  unfold settle_db, fee_tx, with_wallet_ledger, with_transactions, with_wallets,
    with_withdrawals. simpl.
  rewrite (upsert_fresh t_id) by reflexivity.
  rewrite (upsert_fresh l_id
             (wallet_ledger (db s))
             (settle_entry (settle_wallet w amount) uid net_amt (t_id savedTx)
                (fresh_id l_id (wallet_ledger (db s))))) by reflexivity.
  rewrite (upsert_fresh l_id) by (simpl; rewrite fresh_id_app; reflexivity).
  rewrite fresh_id_app by reflexivity.
  rewrite <- app_assoc. reflexivity.
Qed.

(** Without failing writes a stage that finds its wallet commits. *)
Lemma stage1_hold_runs (env : Env) (s : World) (wid uid : uuid) (w : Wallet)
    (amount : Q) :
  no_faults env ->
  find_by_id w_id wid (wallets (db s)) = Some w ->
  lt (balance w) amount = false ->
  stage1_hold env wid uid amount s
  = (Ok (hold_tx (db s) w uid amount),
     mkWorld (hold_db (db s) w uid amount) (4 + writes s) (transfer_calls s)).
Proof.
  intros Hnf Hfind Hlt.
  pose proof (stage1_hold_spec env s wid uid amount) as [Hc Hr].
  revert Hc Hr. unfold stage1_hold. run_monad.
  rewrite Hfind, Hlt. simpl. rewrite !Hnf. simpl.
  intros _ [w1 [E1 [_ [E2 E3]]]]. inversion E1; subst w1.
  rewrite E3. rewrite E2 at 1. reflexivity.
Qed.

Lemma stage2A_refund_runs (env : Env) (s : World) (wid uid : uuid) (w : Wallet)
    (amount : Q) (savedWd : Withdrawal) (savedTx : Transaction)
    (transfer : TransferResult) :
  no_faults env ->
  find_by_id w_id wid (wallets (db s)) = Some w ->
  stage2A_refund env wid uid amount savedWd savedTx transfer s
  = (Ok tt,
     mkWorld (refund_db (db s) w uid amount savedWd savedTx transfer)
             (5 + writes s) (transfer_calls s)).
Proof.
  intros Hnf Hfind.
  pose proof (stage2A_refund_spec env s wid uid amount savedWd savedTx transfer)
    as [Hc Hr].
  revert Hc Hr. unfold stage2A_refund. run_monad.
  rewrite Hfind. simpl. rewrite !Hnf. simpl.
  intros _ [w1 [E1 E2]]. inversion E1; subst w1.
  rewrite E2. reflexivity.
Qed.

Lemma stage2B_settle_runs (env : Env) (s : World) (wid uid : uuid) (w : Wallet)
    (amount fee_amt net_amt : Q) (savedWd : Withdrawal) (savedTx : Transaction)
    (data : TransferData) :
  no_faults env ->
  find_by_id w_id wid (wallets (db s)) = Some w ->
  stage2B_settle env wid uid amount fee_amt net_amt savedWd savedTx data s
  = (Ok tt,
     mkWorld (settle_db (db s) w uid amount fee_amt net_amt savedWd savedTx data)
             (7 + writes s) (transfer_calls s)).
Proof.
  intros Hnf Hfind.
  pose proof (stage2B_settle_spec env s wid uid amount fee_amt net_amt
                savedWd savedTx data) as [Hc Hr].
  revert Hc Hr. unfold stage2B_settle. run_monad.
  rewrite Hfind. simpl. rewrite !Hnf. simpl.
  intros _ [w1 [E1 E2]]. inversion E1; subst w1.
  rewrite E2. reflexivity.
Qed.

(** [getWalletByUserId] returns a wallet of the user that a lookup by
    its key finds; it writes at most the wallet it creates. *)
Lemma getWalletByUserId_spec (env : Env) (s : World) (uid : uuid) :
  let r := getWalletByUserId env uid s in
  transfer_calls (snd r) = transfer_calls s /\
  match fst r with
  | Thrown _ => db (snd r) = db s
  | Ok wallet =>
      w_user_id wallet = uid /\
      after_wallet_lookup (db s) (db (snd r)) uid /\
      exists w : Wallet, find_by_id w_id (w_id wallet) (wallets (db (snd r))) = Some w
  end.
Proof.
  unfold getWalletByUserId, createWallet. run_monad.
  destruct (find (Nat.eqb uid) (users (db s))); simpl; [|split; reflexivity].
  destruct (find (fun w => Nat.eqb (w_user_id w) uid) (wallets (db s)))
    as [w|] eqn:Hfind; simpl.
  - split; [reflexivity|]. apply find_some in Hfind. destruct Hfind as [Hin Hu].
    apply Nat.eqb_eq in Hu. split; [exact Hu|]. split; [left; reflexivity|].
    unfold find_by_id.
    destruct (find (fun r => Nat.eqb (w_id r) (w_id w)) (wallets (db s))) as [w1|] eqn:E.
    + exists w1. reflexivity.
    + exfalso. apply (find_none _ _ E) in Hin. rewrite Nat.eqb_refl in Hin. discriminate.
  - rewrite Hfind. simpl. case_write env; [split; reflexivity|].
    split; [reflexivity|]. split; [reflexivity|].
    split.
    + right. unfold created_wallet. rewrite (upsert_fresh w_id) by reflexivity.
      reflexivity.
    + eexists.
      exact (find_by_id_upsert w_id (wallets (db s))
               (mkWallet (fresh_id w_id (wallets (db s))) uid 0 0 0 0 "USD")).
Qed.

(** Resolving the bank account reads the database only. *)
Lemma resolve_account_pure (req : WithdrawalRequest) (s : World) :
  snd (resolve_account req s) = s /\
  exists x : Response + AccountInfo, fst (resolve_account req s) = Ok x.
Proof.
  unfold resolve_account. run_monad.
  destruct (wr_bank_account_id req) as [i|]; simpl.
  - destruct (find _ (bank_accounts (db s))); simpl; split; eauto.
  - destruct (truthy_str (wr_bank_name req) && truthy_str (wr_bank_code req)
              && truthy_str (wr_account_number req) && truthy_str (wr_account_name req));
      simpl; split; eauto.
Qed.

(** The wallet stage 2 finds on the held database is the one stage 1
    wrote. *)
Lemma held_db_wallet (d0 : DB) (w : Wallet) (uid : uuid)
    (accountInfo : AccountInfo) (amount : Q) :
  find_by_id w_id (w_id w) (wallets (held_db d0 w uid accountInfo amount))
  = Some (hold_wallet w amount).
Proof.
  unfold held_db, hold_db, with_withdrawals. simpl.
  exact (find_by_id_upsert w_id (wallets d0) (hold_wallet w amount)).
Qed.

(** Every run of [POST /withdrawals] ends in one of the worlds of
    [withdrawal_outcome], whatever fails. *)
Lemma post_withdrawals_outcome (env : Env) (req : WithdrawalRequest) (s : World) :
  withdrawal_outcome env req s (snd (post_withdrawals env req s)).
Proof.
  unfold withdrawal_outcome, post_withdrawals, catch_500, bind.
  destruct (negb (lt 0 (wr_amount req))).
  { left. split; [reflexivity | left; reflexivity]. }
  pose proof (getWalletByUserId_spec env s (wr_user req)) as Hg. simpl in Hg.
  destruct (getWalletByUserId env (wr_user req) s) as [[wallet|e] s0]; simpl in Hg.
  2:{ destruct Hg as [Hc Hd]. left. simpl. rewrite Hc, Hd.
      split; [reflexivity | left; reflexivity]. }
  destruct Hg as [Hc0 [Hu [Hlook [w Hw]]]].
  destruct (lt (balance wallet) (wr_amount req)).
  { left. simpl. split; assumption. }
  pose proof (resolve_account_pure req s0) as [Hrs [x Hrx]].
  destruct (resolve_account req s0) as [ores sr]. simpl in Hrs, Hrx. subst sr ores.
  destruct x as [resp | accountInfo].
  { left. simpl. split; assumption. }
  pose proof (stage1_hold_spec env s0 (w_id wallet) (wr_user req) (wr_amount req))
    as [Hc1 H1].
  destruct (stage1_hold env (w_id wallet) (wr_user req) (wr_amount req) s0)
    as [[savedTx|e] s1]; simpl in Hc1, H1.
  2:{ destruct H1 as [Hd _]. left. simpl. rewrite Hc1, Hd. split; assumption. }
  destruct H1 as [w1 [Hf1 [Hlt1 [Etx Hd1]]]].
  assert (Hid : w_id w1 = w_id wallet) by (apply (find_by_id_key w_id _ _ _ Hf1)).
  rewrite <- Hid in Hf1.
  right. exists (db s0), w1, accountInfo.
  split; [exact Hlook|]. split; [exact Hf1|]. split; [exact Hlt1|].
  pose proof (create_withdrawal_spec env s1 (wr_user req) accountInfo
                (wr_amount req) savedTx) as Hcw. simpl in Hcw.
  destruct (create_withdrawal env (wr_user req) accountInfo (wr_amount req)
              (fee (wr_amount req)) (net (wr_amount req)) savedTx s1)
    as [[savedWd|e] s2]; simpl in Hcw.
  2:{ destruct Hcw as [Hc2 [Hd2 Hfault]]. left. simpl.
      rewrite Hc2, Hc1, Hd2, Hd1. split; [exact Hc0|]. split; [reflexivity|exact Hfault]. }
  destruct Hcw as [Hc2 [Ewd Hd2]].
  right.
  assert (Hheld : db s2 = held_db (db s0) w1 (wr_user req) accountInfo (wr_amount req)).
  { rewrite Hd2, Ewd, Hd1, Etx. reflexivity. }
  assert (Hfind2 : find_by_id w_id (w_id wallet) (wallets (db s2))
                   = Some (hold_wallet w1 (wr_amount req))).
  { rewrite Hheld, <- Hid. apply held_db_wallet. }
  unfold transfer_and_resolve, call_initiateBankTransfer, bind. simpl.
  fold (transfer_failed
          (initiateBankTransfer env (net (wr_amount req)) (ai_name accountInfo)
             (ai_number accountInfo) (ai_bankCode accountInfo))).
  set (transfer := initiateBankTransfer env (net (wr_amount req)) (ai_name accountInfo)
                     (ai_number accountInfo) (ai_bankCode accountInfo)).
  set (s3 := mkWorld (db s2) (writes s2)
               (transfer_calls s2 ++ [(net (wr_amount req), db s2)])).
  assert (Hcalls : transfer_calls s3
                   = transfer_calls s
                     ++ [(net (wr_amount req),
                          held_db (db s0) w1 (wr_user req) accountInfo (wr_amount req))]).
  { unfold s3. simpl. rewrite Hc2, Hc1, Hc0, Hheld. reflexivity. }
  destruct (transfer_failed transfer) eqn:Htf.
  - pose proof (stage2A_refund_spec env s3 (w_id wallet) (wr_user req)
                  (wr_amount req) savedWd savedTx transfer) as Hs. simpl in Hs.
    destruct (stage2A_refund env (w_id wallet) (wr_user req) (wr_amount req)
                savedWd savedTx transfer s3) as [[u|e] s4]; simpl in Hs; simpl.
    + destruct Hs as [Hc4 [w2 [Hf2 Hd4]]].
      split; [rewrite Hc4; exact Hcalls|]. right. left. split; [reflexivity|].
      change (db s3) with (db s2) in Hf2, Hd4.
      rewrite Hfind2 in Hf2. inversion Hf2; subst w2.
      rewrite Hd4, Hheld, Ewd, Hd1, Etx. reflexivity.
    + destruct Hs as [Hc4 [Hd4 Hwhy]].
      split; [rewrite Hc4; exact Hcalls|]. left.
      split; [rewrite Hd4; exact Hheld|].
      destruct Hwhy as [Hnone | Hfault]; [|exact Hfault].
      change (db s3) with (db s2) in Hnone. congruence.
  - pose proof (stage2B_settle_spec env s3 (w_id wallet) (wr_user req)
                  (wr_amount req) (fee (wr_amount req)) (net (wr_amount req))
                  savedWd savedTx (transfer_data transfer)) as Hs. simpl in Hs.
    destruct (stage2B_settle env (w_id wallet) (wr_user req) (wr_amount req)
                (fee (wr_amount req)) (net (wr_amount req)) savedWd savedTx
                (transfer_data transfer) s3) as [[u|e] s4]; simpl in Hs; simpl.
    + destruct Hs as [Hc4 [w2 [Hf2 Hd4]]].
      split; [rewrite Hc4; exact Hcalls|]. right. right. split; [reflexivity|].
      change (db s3) with (db s2) in Hf2, Hd4.
      rewrite Hfind2 in Hf2. inversion Hf2; subst w2.
      rewrite Hd4, Hheld, Ewd, Hd1, Etx. reflexivity.
    + destruct Hs as [Hc4 [Hd4 Hwhy]].
      split; [rewrite Hc4; exact Hcalls|]. left.
      split; [rewrite Hd4; exact Hheld|].
      destruct Hwhy as [Hnone | Hfault]; [|exact Hfault].
      change (db s3) with (db s2) in Hnone. congruence.
Qed.

(* ------------------------------------------------------------------ *)
(** ** Whole cents go through the rounding unchanged *)

#[global] Instance whole_cents_Proper : Proper (Qeq ==> iff) whole_cents.
Proof.
  intros x y Hxy. unfold whole_cents.
  split; intros [n Hn]; exists n; [rewrite <- Hxy | rewrite Hxy]; exact Hn.
Qed.



Lemma whole_cents_0 : whole_cents 0.
Proof. exists 0%Z. reflexivity. Qed.







(** Outside whole cents the rounding is not the identity: a hold of half
    a cent on a balance of 1.00 leaves the balance at 1.00 and holds a
    full cent, and the refund then brings the balance to 1.01. *)
Remark half_cent_hold_and_refund :
  let w := mkWallet 1 7 1 0 0 0 "USD" in
  balance (hold_wallet w 0.005) == 1 /\
  pending_balance (hold_wallet w 0.005) == 0.01 /\
  balance (refund_wallet (hold_wallet w 0.005) 0.005) == 1.01 /\
  pending_balance (settle_wallet (hold_wallet w 0.005) 0.005) == 0.01.
Proof. vm_compute. repeat split; reflexivity. Qed.

(* ------------------------------------------------------------------ *)
(** ** The steps on an account are what the transactions commit *)

Lemma account_of_commit (d : DB) (wid : uuid) (w w1 : Wallet)
    (ws : list Wallet) (rows : list WalletLedger) (d1 : DB) :
  find_by_id w_id wid (wallets d) = Some w ->
  w_id w1 = w_id w ->
  wallets d1 = upsert w_id w1 (wallets d) ->
  wallet_ledger d1 = wallet_ledger d ++ rows ->
  Forall (fun l => l_wallet_id l = w_id w1) rows ->
  match account_of d wid with
  | Some a =>
      account_of d1 wid
      = Some (mkAccount w1 (acct_ledger a ++ map line_of rows))
  | None => False
  end.
Proof.
  intros Hfind Hid Hws Hls Hrows.
  pose proof (find_by_id_key w_id _ _ _ Hfind) as Hw.
  unfold account_of. rewrite Hfind, Hws, Hls.
  assert (E : find_by_id w_id wid (upsert w_id w1 (wallets d)) = Some w1).
  { rewrite <- Hw, <- Hid. apply find_by_id_upsert. }
  rewrite E. simpl. rewrite filter_app, map_app. do 3 f_equal.
  clear Hls. induction Hrows as [|l rows Hl Hrows IH]; simpl; [reflexivity|].
  assert (Hk : Nat.eqb (l_wallet_id l) wid = true).
  { apply Nat.eqb_eq. congruence. }
  rewrite Hk. simpl. f_equal. exact IH.
Qed.

(** Stage 1, stage 2A and stage 2B, run without failing writes on a
    database that has the wallet, change the wallet's account exactly as
    the steps [OpHold], [OpRefund] and [OpSettle] do. *)
Lemma stages_commit_steps (env : Env) (s : World) (wid uid : uuid) (w : Wallet)
    (a : Account) (amount : Q) (savedWd : Withdrawal) (savedTx : Transaction)
    (transfer : TransferResult) (data : TransferData) :
  no_faults env ->
  find_by_id w_id wid (wallets (db s)) = Some w ->
  account_of (db s) wid = Some a ->
  account_of (db (snd (stage1_hold env wid uid amount s))) wid
  = Some (step (OpHold amount) a) /\
  account_of (db (snd (stage2A_refund env wid uid amount savedWd savedTx transfer s))) wid
  = Some (step (OpRefund amount) a) /\
  account_of (db (snd (stage2B_settle env wid uid amount (fee amount) (net amount)
                         savedWd savedTx data s))) wid
  = Some (step (OpSettle amount) a).
Proof.
  intros Hnf Hfind Hacct.
  assert (Ha : a = mkAccount w (acct_ledger a)).
  { unfold account_of in Hacct. rewrite Hfind in Hacct.
    inversion Hacct. reflexivity. }
  split; [|split].
  - unfold step. simpl. rewrite Ha. simpl.
    destruct (lt (balance w) amount) eqn:Hlt.
    + rewrite (stage1_hold_insufficient env s wid uid w amount Hfind)
        by (apply lt_true_iff; exact Hlt).
      simpl. rewrite <- Ha. exact Hacct.
    + rewrite (stage1_hold_runs env s wid uid w amount Hnf Hfind Hlt). simpl.
      pose proof (account_of_commit (db s) wid w (hold_wallet w amount) (wallets (db s))
                    [hold_entry (hold_wallet w amount) uid amount
                       (t_id (hold_tx (db s) w uid amount))
                       (fresh_id l_id (wallet_ledger (db s)))]
                    (hold_db (db s) w uid amount) Hfind eq_refl eq_refl eq_refl) as H.
      rewrite Hacct in H. rewrite H by (repeat constructor).
      rewrite Ha. reflexivity.
  - unfold step. simpl.
    rewrite (stage2A_refund_runs env s wid uid w amount savedWd savedTx transfer
               Hnf Hfind). simpl.
    pose proof (account_of_commit (db s) wid w (refund_wallet w amount) (wallets (db s))
                  [refund_entry (refund_wallet w amount) uid amount (t_id savedTx)
                     (fresh_id l_id (wallet_ledger (db s)))]
                  (refund_db (db s) w uid amount savedWd savedTx transfer)
                  Hfind eq_refl eq_refl eq_refl) as H.
    rewrite Hacct in H. rewrite H by (repeat constructor).
    rewrite Ha. reflexivity.
  - unfold step. simpl.
    rewrite (stage2B_settle_runs env s wid uid w amount (fee amount) (net amount)
               savedWd savedTx data Hnf Hfind). simpl.
    pose proof (account_of_commit (db s) wid w (settle_wallet w amount) (wallets (db s))
                  [settle_entry (settle_wallet w amount) uid (net amount) (t_id savedTx)
                     (fresh_id l_id (wallet_ledger (db s)));
                   fee_entry (settle_wallet w amount) uid (fee amount)
                     (t_id (fee_tx
                              (upsert t_id
                                 (tx_with_status savedTx COMPLETED "Withdrawal completed"
                                    (t_verified savedTx))
                                 (transactions (db s)))
                              (settle_wallet w amount) uid (fee amount)))
                     (S (fresh_id l_id (wallet_ledger (db s))))]
                  (settle_db (db s) w uid amount (fee amount) (net amount)
                     savedWd savedTx data)
                  Hfind eq_refl eq_refl eq_refl) as H.
    rewrite Hacct in H. rewrite H by (repeat constructor).
    rewrite Ha. reflexivity.
Qed.

Lemma account_of_after (d d1 : DB) (wid : uuid) (a : Account) (w1 : Wallet)
    (rows : list WalletLedger) :
  account_of d wid = Some a ->
  find_by_id w_id wid (wallets d1) = Some w1 ->
  wallet_ledger d1 = wallet_ledger d ++ rows ->
  Forall (fun l => l_wallet_id l = wid) rows ->
  account_of d1 wid = Some (mkAccount w1 (acct_ledger a ++ map line_of rows)).
Proof.
  intros Hacct Hfind Hls Hrows.
  unfold account_of in *. rewrite Hfind, Hls.
  destruct (find_by_id w_id wid (wallets d)); [|discriminate].
  inversion Hacct; subst a. simpl. rewrite filter_app, map_app. do 3 f_equal.
  clear Hls. induction Hrows as [|l rows Hl Hrows IH]; simpl; [reflexivity|].
  assert (Hk : Nat.eqb (l_wallet_id l) wid = true) by (apply Nat.eqb_eq; exact Hl).
  rewrite Hk. simpl. f_equal. exact IH.
Qed.

(** The credit of a verified deposit is the step [OpDeposit]. *)
Lemma credit_pending_commits_step (env : Env) (s : World) (uid : uuid)
    (w : Wallet) (a : Account) (ptx : Transaction) (amount : Q) :
  no_faults env ->
  find (fun x => Nat.eqb (w_user_id x) uid) (wallets (db s)) = Some w ->
  account_of (db s) (w_id w) = Some a ->
  acct_wallet a = w ->
  fst (credit_pending env uid ptx amount s) = Ok (mkResponse 200 true EmptyString) /\
  account_of (db (snd (credit_pending env uid ptx amount s))) (w_id w)
  = Some (step (OpDeposit amount) a).
Proof.
  intros Hnf Hfind Hacct Hw.
  unfold credit_pending. run_monad. rewrite Hfind. simpl. rewrite !Hnf. simpl.
  split; [reflexivity|].
  rewrite (upsert_fresh l_id) by reflexivity.
  unfold step. simpl. rewrite Hw.
  apply (account_of_after (db s) _ (w_id w) a (credit_wallet w amount)
           [deposit_entry (credit_wallet w amount) uid amount (t_reference ptx)
              (t_id ptx) (fresh_id l_id (wallet_ledger (db s)))]).
  - exact Hacct.
  - simpl. exact (find_by_id_upsert w_id (wallets (db s)) (credit_wallet w amount)).
  - reflexivity.
  - repeat constructor.
Qed.

(** [walletService.withdrawFunds] is the step [OpWithdraw]: the balance
    goes down and no ledger row is written. *)
Lemma withdrawFunds_commits_step (env : Env) (s : World) (uid u : uuid)
    (w : Wallet) (a : Account) (amount : Q) (bank : string) :
  no_faults env ->
  find (Nat.eqb uid) (users (db s)) = Some u ->
  find (fun x => Nat.eqb (w_user_id x) uid) (wallets (db s)) = Some w ->
  account_of (db s) (w_id w) = Some a ->
  acct_wallet a = w ->
  account_of (db (snd (withdrawFunds env uid amount bank s))) (w_id w)
  = Some (step (OpWithdraw amount) a) /\
  wallet_ledger (db (snd (withdrawFunds env uid amount bank s))) = wallet_ledger (db s).
Proof.
  intros Hnf Hu Hfind Hacct Hw.
  unfold withdrawFunds, getWalletByUserId. run_monad.
  rewrite Hu. simpl. rewrite Hfind. simpl.
  unfold step. simpl. rewrite Hw.
  destruct (lt (balance w) amount); simpl.
  - split; [exact Hacct | reflexivity].
  - rewrite !Hnf. simpl. split; [|reflexivity].
    rewrite <- (app_nil_r (acct_ledger a)).
    apply (account_of_after (db s) _ (w_id w) a
             (with_balance w (balance w - amount)) []).
    + exact Hacct.
    + simpl. exact (find_by_id_upsert w_id (wallets (db s))
                      (with_balance w (balance w - amount))).
    + simpl. rewrite app_nil_r. reflexivity.
    + constructor.
Qed.

(** [walletService.transferFunds] between two wallets is [OpTransferOut]
    on the sender and [OpTransferIn] on the receiver, with no ledger
    row. *)
Lemma transferFunds_commits_steps (env : Env) (s : World) (fromId toId u1 u2 : uuid)
    (wf wt : Wallet) (af at_ : Account) (amount : Q) (description : string) :
  no_faults env ->
  find (Nat.eqb fromId) (users (db s)) = Some u1 ->
  find (Nat.eqb toId) (users (db s)) = Some u2 ->
  find (fun x => Nat.eqb (w_user_id x) fromId) (wallets (db s)) = Some wf ->
  find (fun x => Nat.eqb (w_user_id x) toId) (wallets (db s)) = Some wt ->
  w_id wf <> w_id wt ->
  account_of (db s) (w_id wf) = Some af -> acct_wallet af = wf ->
  account_of (db s) (w_id wt) = Some at_ -> acct_wallet at_ = wt ->
  lt (balance wf) amount = false ->
  account_of (db (snd (transferFunds env fromId toId amount description s))) (w_id wf)
  = Some (step (OpTransferOut amount) af) /\
  account_of (db (snd (transferFunds env fromId toId amount description s))) (w_id wt)
  = Some (step (OpTransferIn amount) at_) /\
  wallet_ledger (db (snd (transferFunds env fromId toId amount description s)))
  = wallet_ledger (db s).
Proof.
  intros Hnf Hu1 Hu2 Hf Ht Hne Haf Hwf Hat Hwt Hlt.
  unfold transferFunds, getWalletByUserId. run_monad.
  rewrite Hu1. simpl. rewrite Hf. simpl. rewrite Hu2. simpl. rewrite Ht. simpl.
  rewrite Hlt. simpl. rewrite !Hnf. simpl.
  unfold step. simpl. rewrite Hwf, Hwt, Hlt.
  split; [|split; [|reflexivity]].
  - rewrite <- (app_nil_r (acct_ledger af)).
    apply (account_of_after (db s) _ (w_id wf) af
             (with_balance wf (balance wf - amount)) []).
    + exact Haf.
    + simpl. rewrite find_by_id_upsert_other by (simpl; exact Hne).
      exact (find_by_id_upsert w_id (wallets (db s))
               (with_balance wf (balance wf - amount))).
    + simpl. rewrite app_nil_r. reflexivity.
    + constructor.
  - rewrite <- (app_nil_r (acct_ledger at_)).
    apply (account_of_after (db s) _ (w_id wt) at_
             (with_balance wt (balance wt + amount)) []).
    + exact Hat.
    + simpl.
      exact (find_by_id_upsert w_id
               (upsert w_id (with_balance wf (balance wf - amount)) (wallets (db s)))
               (with_balance wt (balance wt + amount))).
    + simpl. rewrite app_nil_r. reflexivity.
    + constructor.
Qed.

(* ------------------------------------------------------------------ *)
(** ** The answer and the world of every withdrawal request *)




(** Whoever is not a creator is turned away before the handler runs. *)
Lemma withdrawals_route_of_others (env : Env) (user : AuthUser)
    (body : WithdrawalBody) (s : World) :
  au_type user <> CREATOR ->
  withdrawals_route env (Token user) body s
  = (Ok (mkResponse 403 false "Access denied. Insufficient permissions."), s).
Proof.
  intro Hc. unfold withdrawals_route, authenticate, authorize. simpl.
  destruct (au_type user); try reflexivity. congruence.
Qed.

(* ------------------------------------------------------------------ *)
(** ** What the refund and the settlement leave in the database *)




(* ------------------------------------------------------------------ *)
(** ** The wallet service on a database that has the wallet *)

Lemma getWalletByUserId_existing (env : Env) (s : World) (uid u : uuid) (w : Wallet) :
  find (Nat.eqb uid) (users (db s)) = Some u ->
  find (fun x => Nat.eqb (w_user_id x) uid) (wallets (db s)) = Some w ->
  getWalletByUserId env uid s = (Ok w, s).
Proof.
  intros Hu Hf. unfold getWalletByUserId. run_monad.
  rewrite Hu. simpl. rewrite Hf. reflexivity.
Qed.

Lemma find_user_absent (ws : list Wallet) (uid : uuid) :
  find (fun x => Nat.eqb (w_user_id x) uid) ws = None ->
  ~ In uid (map w_user_id ws).
Proof.
  intros Hnone Hin. apply in_map_iff in Hin. destruct Hin as [x [Hx Hin]].
  apply (find_none _ _ Hnone) in Hin. simpl in Hin.
  rewrite Hx, Nat.eqb_refl in Hin. discriminate.
Qed.

Lemma find_app_none {A : Type} (f : A -> bool) (l1 l2 : list A) :
  find f l1 = None -> find f (l1 ++ l2) = find f l2.
Proof.
  induction l1 as [|x l1 IH]; simpl; [reflexivity|].
  destruct (f x); [discriminate | exact IH].
Qed.

Lemma find_app_some {A : Type} (f : A -> bool) (l1 l2 : list A) (a : A) :
  find f l1 = Some a -> find f (l1 ++ l2) = Some a.
Proof.
  induction l1 as [|x l1 IH]; simpl; [discriminate|].
  destruct (f x); [intro H; exact H | exact IH].
Qed.

(** Saving the wallet of a user keeps it the wallet found for that
    user. *)
Lemma find_user_upsert (ws : list Wallet) (w w1 : Wallet) (uid : uuid) :
  find (fun x => Nat.eqb (w_user_id x) uid) ws = Some w ->
  w_id w1 = w_id w -> w_user_id w1 = uid ->
  find (fun x => Nat.eqb (w_user_id x) uid) (upsert w_id w1 ws) = Some w1.
Proof.
  intros Hfind Hid Hu. unfold upsert.
  assert (Hex : existsb (fun x => Nat.eqb (w_id x) (w_id w1)) ws = true).
  { apply existsb_exists. exists w. apply find_some in Hfind.
    split; [tauto|]. rewrite Hid. apply Nat.eqb_refl. }
  rewrite Hex. clear Hex.
  induction ws as [|x ws IH]; simpl in *; [discriminate|].
  destruct (Nat.eqb (w_id x) (w_id w1)) eqn:Hk; simpl.
  - rewrite Hu, Nat.eqb_refl. reflexivity.
  - destruct (Nat.eqb (w_user_id x) uid) eqn:Hx.
    + inversion Hfind; subst x. rewrite Hid, Nat.eqb_refl in Hk. discriminate.
    + apply IH. exact Hfind.
Qed.

(** Saving another wallet leaves the wallet found for a user as it
    was. *)
Lemma find_user_upsert_other (ws : list Wallet) (w w1 : Wallet) (uid : uuid) :
  find (fun x => Nat.eqb (w_user_id x) uid) ws = Some w ->
  w_id w1 <> w_id w -> w_user_id w1 <> uid ->
  find (fun x => Nat.eqb (w_user_id x) uid) (upsert w_id w1 ws) = Some w.
Proof.
  intros Hfind Hid Hu. unfold upsert.
  destruct (existsb (fun x => Nat.eqb (w_id x) (w_id w1)) ws).
  - induction ws as [|x ws IH]; simpl in *; [discriminate|].
    destruct (Nat.eqb (w_id x) (w_id w1)) eqn:Hk; simpl.
    + destruct (Nat.eqb (w_user_id x) uid) eqn:Hx.
      * inversion Hfind; subst x. apply Nat.eqb_eq in Hk. congruence.
      * apply Nat.eqb_neq in Hu. rewrite Hu. apply IH. exact Hfind.
    + destruct (Nat.eqb (w_user_id x) uid); [exact Hfind | apply IH; exact Hfind].
  - apply find_app_some. exact Hfind.
Qed.

Lemma NoDup_snoc {A : Type} (l : list A) (a : A) :
  NoDup l -> ~ In a l -> NoDup (l ++ [a]).
Proof.
  intros Hl Ha. induction Hl as [|x l Hx Hl IH]; simpl.
  - constructor; [intros [] | constructor].
  - constructor.
    + intro Hin. apply in_app_or in Hin. destruct Hin as [Hin | [Hin | []]].
      * exact (Hx Hin).
      * apply Ha. left. symmetry. exact Hin.
    + apply IH. intro Hin. apply Ha. right. exact Hin.
Qed.

(* ------------------------------------------------------------------ *)
(** ** Stage 1 and the gateway call *)

Lemma never_no_faults (transfer : TransferResult) : no_faults (ex_env never transfer).
Proof. intros n. reflexivity. Qed.

(** What the database holds when the gateway is called. *)
Lemma held_db_contents (d0 : DB) (w : Wallet) (uid : uuid)
    (accountInfo : AccountInfo) (amount : Q) :
  let d1 := held_db d0 w uid accountInfo amount in
  find_by_id w_id (w_id w) (wallets d1) = Some (hold_wallet w amount) /\
  transactions d1 = transactions d0 ++ [hold_tx d0 w uid amount] /\
  wallet_ledger d1
  = wallet_ledger d0
    ++ [hold_entry (hold_wallet w amount) uid amount
          (t_id (hold_tx d0 w uid amount)) (fresh_id l_id (wallet_ledger d0))] /\
  exists wd : Withdrawal,
    withdrawals d1 = withdrawals d0 ++ [wd] /\
    wd_status wd = "processing"%string /\
    wd_transaction_id wd = Some (t_id (hold_tx d0 w uid amount)).
Proof.
  split; [apply held_db_wallet|].
  split; [reflexivity|]. split; [reflexivity|].
  eexists. split; [reflexivity|]. split; reflexivity.
Qed.

(** C4, as the code has it. The wallet update, the hold transaction and
    the withdrawal_hold ledger row are one atomic unit: stage 1 commits
    all three or, when anything in it fails, none. The gateway is called
    only on a database in which that unit is committed and the
    withdrawal row, status processing and linked to the hold transaction,
    has been written after it. *)
Theorem hold_atomic_before_gateway :
  (forall (env : Env) (s : World) (wid uid : uuid) (amount : Q),
      transfer_calls (snd (stage1_hold env wid uid amount s)) = transfer_calls s /\
      match fst (stage1_hold env wid uid amount s) with
      | Thrown _ => db (snd (stage1_hold env wid uid amount s)) = db s
      | Ok tx =>
          exists w : Wallet,
            find_by_id w_id wid (wallets (db s)) = Some w /\
            tx = hold_tx (db s) w uid amount /\
            db (snd (stage1_hold env wid uid amount s)) = hold_db (db s) w uid amount
      end) /\
  (forall (env : Env) (req : WithdrawalRequest) (s : World),
      transfer_calls (snd (post_withdrawals env req s)) = transfer_calls s \/
      exists (d0 : DB) (w : Wallet) (accountInfo : AccountInfo),
        after_wallet_lookup (db s) d0 (wr_user req) /\
        find_by_id w_id (w_id w) (wallets d0) = Some w /\
        transfer_calls (snd (post_withdrawals env req s))
        = transfer_calls s
          ++ [(net (wr_amount req),
               held_db d0 w (wr_user req) accountInfo (wr_amount req))]) /\
  (forall (d0 : DB) (w : Wallet) (uid : uuid) (accountInfo : AccountInfo) (amount : Q),
      find_by_id w_id (w_id w) (wallets (held_db d0 w uid accountInfo amount))
      = Some (hold_wallet w amount) /\
      transactions (held_db d0 w uid accountInfo amount)
      = transactions d0 ++ [hold_tx d0 w uid amount] /\
      wallet_ledger (held_db d0 w uid accountInfo amount)
      = wallet_ledger d0
        ++ [hold_entry (hold_wallet w amount) uid amount
              (t_id (hold_tx d0 w uid amount)) (fresh_id l_id (wallet_ledger d0))] /\
      exists wd : Withdrawal,
        withdrawals (held_db d0 w uid accountInfo amount) = withdrawals d0 ++ [wd] /\
        wd_status wd = "processing"%string /\
        wd_transaction_id wd = Some (t_id (hold_tx d0 w uid amount))).
Proof.
  split; [|split].
  - intros env s wid uid amount.
    pose proof (stage1_hold_spec env s wid uid amount) as [Hc Hr].
    split; [exact Hc|].
    destruct (fst (stage1_hold env wid uid amount s)).
    + destruct Hr as [w [Hf [_ [Etx Hd]]]]. exists w. auto.
    + destruct Hr as [Hd _]. exact Hd.
  - intros env req s.
    destruct (post_withdrawals_outcome env req s)
      as [[Hc _] | [d0 [w [ai [Hlook [Hf [_ [[Hc _] | [Hc _]]]]]]]]].
    + left. exact Hc.
    + left. exact Hc.
    + right. exists d0, w, ai. auto.
  - intros d0 w uid accountInfo amount.
    exact (held_db_contents d0 w uid accountInfo amount).
Qed.

(** C4 as stated fails: the withdrawal row is saved after the hold
    transaction committed. When that save fails (the fifth write) the
    request answers 500, no withdrawal row exists and the gateway was not
    called, yet the hold stays: balance 600, pending 400, the hold
    transaction and its ledger row. *)
Lemma withdrawal_row_outside_hold_unit :
  let r := post_withdrawals (ex_env (Nat.eqb 4) gateway_accepts)
             (ex_withdraw 400) (ex_world 1000 0) in
  fst r = Ok (mkResponse 500 false "Internal server error") /\
  withdrawals (db (snd r)) = [] /\
  transfer_calls (snd r) = [] /\
  db (snd r) = hold_db (ex_db 1000 0) (ex_wallet 1000 0) 7 400 /\
  (exists w : Wallet,
      find_by_id w_id 1 (wallets (db (snd r))) = Some w /\
      balance w == 600 /\ pending_balance w == 400) /\
  List.length (transactions (db (snd r))) = 1%nat /\
  map context (wallet_ledger (db (snd r))) = ["withdrawal_hold"%string].
Proof.
  vm_compute.
  repeat split; try reflexivity.
  eexists. split; [reflexivity|]. split; reflexivity.
Qed.

(* ------------------------------------------------------------------ *)
(** ** C5: the refund of a refused transfer *)


Lemma after_wallet_lookup_ledger (d d0 : DB) (uid : uuid) :
  after_wallet_lookup d d0 uid -> wallet_ledger d0 = wallet_ledger d.
Proof. intros [H | H]; rewrite H; reflexivity. Qed.




(** The amount sent as the string "400" passes the validators. The
    hold and the refund then concatenate where they mean to add: after
    the refused withdrawal the balance of 1000 is 0. *)
Remark string_amount_is_concatenated :
  let r := withdrawals_route (ex_env never gateway_refuses) (Token ex_creator)
             (ex_body (AsString "400")) (ex_prize_world never gateway_refuses) in
  valid_amount (AsString "400") = true /\
  fst r = Ok (mkResponse 400 false "Transfer service unavailable") /\
  exists w : Wallet,
    find_by_id w_id 1 (wallets (db (snd r))) = Some w /\
    balance w == 0 /\ pending_balance w == 0.
Proof.
  vm_compute.
  split; [reflexivity|]. split; [reflexivity|].
  eexists. split; [reflexivity | split; reflexivity].
Qed.

(* ------------------------------------------------------------------ *)
(** ** C6: the settlement of an accepted transfer *)



(* ------------------------------------------------------------------ *)
(** ** Deposit verification writes one row at a time *)

(** C7, the code at a failing write. The deposit credit is three
    separate saves with no transaction around them. When the second one
    (the transaction row) fails, the request answers 500 with the wallet
    already credited: balance 1000, the deposit still pending, no ledger
    row. Verifying the same reference again then credits the wallet a
    second time. The fallback path behaves the same way. *)
Theorem deposit_credit_not_atomic :
  let env := ex_env (Nat.eqb 1) gateway_accepts in
  let r1 := post_deposits_verify env ex_verify (mkWorld ex_deposit_db 0 []) in
  let r2 := post_deposits_verify env ex_verify (snd r1) in
  let f1 := post_deposits_verify env ex_verify (ex_world 0 0) in
  (fst r1 = Ok (mkResponse 500 false "Internal server error") /\
   (exists w : Wallet,
       find_by_id w_id 1 (wallets (db (snd r1))) = Some w /\ balance w == 1000) /\
   map t_status (transactions (db (snd r1))) = [PENDING] /\
   wallet_ledger (db (snd r1)) = []) /\
  (fst r2 = Ok (mkResponse 200 true EmptyString) /\
   (exists w : Wallet,
       find_by_id w_id 1 (wallets (db (snd r2))) = Some w /\ balance w == 2000) /\
   List.length (wallet_ledger (db (snd r2))) = 1%nat) /\
  (fst f1 = Ok (mkResponse 500 false "Internal server error") /\
   (exists w : Wallet,
       find_by_id w_id 1 (wallets (db (snd f1))) = Some w /\ balance w == 1000) /\
   transactions (db (snd f1)) = [] /\
   wallet_ledger (db (snd f1)) = []).
Proof.
  vm_compute.
  repeat split; try reflexivity;
    eexists; (split; [reflexivity|]); reflexivity.
Qed.

(* ------------------------------------------------------------------ *)
(** ** The refund runs once per request, without a status guard *)

(** The ledger rows one request appends. *)
Lemma post_withdrawals_ledger (env : Env) (req : WithdrawalRequest) (s : World) :
  exists rows : list WalletLedger,
    wallet_ledger (db (snd (post_withdrawals env req s)))
    = wallet_ledger (db s) ++ rows /\
    (map context rows = []
     \/ map context rows = ["withdrawal_hold"%string]
     \/ map context rows = ["withdrawal_hold"%string; "withdrawal_refund"%string]
     \/ map context rows = ["withdrawal_hold"%string; "withdrawal_settle"%string;
                            "withdrawal_fee"%string]).
Proof.
  destruct (post_withdrawals_outcome env req s)
    as [[_ Hlook] | [d0 [w [ai [Hlook [Hf [Hlt Hcase]]]]]]].
  - exists []. rewrite app_nil_r.
    split; [apply (after_wallet_lookup_ledger _ _ _ Hlook) | left; reflexivity].
  - pose proof (after_wallet_lookup_ledger _ _ _ Hlook) as Hl.
    destruct Hcase as [[_ [Hd _]] | [_ [[Hd _] | [[_ Hd] | [_ Hd]]]]];
      rewrite Hd; simpl; rewrite Hl.
    + eexists. split; [reflexivity|]. right. left. reflexivity.
    + eexists. split; [reflexivity|]. right. left. reflexivity.
    + eexists. split; [rewrite <- app_assoc; reflexivity|].
      right. right. left. reflexivity.
    + eexists. split; [rewrite <- app_assoc; reflexivity|].
      right. right. right. reflexivity.
Qed.

(** C8, as the code has it. Handling one withdrawal request runs the
    refund at most once, whatever fails: the rows the request appends to
    the ledger are none, the hold, the hold and one withdrawal_refund
    credit, or the hold and the two settlement debits. *)
Theorem refund_once_per_request :
  forall (env : Env) (req : WithdrawalRequest) (s : World),
  exists rows : list WalletLedger,
    wallet_ledger (db (snd (post_withdrawals env req s)))
    = wallet_ledger (db s) ++ rows /\
    (map context rows = []
     \/ map context rows = ["withdrawal_hold"%string]
     \/ map context rows = ["withdrawal_hold"%string; "withdrawal_refund"%string]
     \/ map context rows = ["withdrawal_hold"%string; "withdrawal_settle"%string;
                            "withdrawal_fee"%string]) /\
    (List.length (refund_rows rows) <= 1)%nat.
Proof.
  intros env req s.
  destruct (post_withdrawals_ledger env req s) as [rows [Hrows Hshape]].
  exists rows. split; [exact Hrows|]. split; [exact Hshape|].
  assert (Hlen : forall ls : list WalletLedger,
             refund_rows ls
             = filter (fun l => String.eqb (context l) "withdrawal_refund") ls)
    by reflexivity.
  assert (Hmap : forall ls : list WalletLedger,
             List.length (refund_rows ls)
             = List.length (filter (fun c => String.eqb c "withdrawal_refund")
                              (map context ls))).
  { induction ls as [|l ls IH]; simpl; [reflexivity|].
    unfold refund_rows in *. simpl.
    destruct (String.eqb (context l) "withdrawal_refund"); simpl; rewrite IH;
      reflexivity. }
  rewrite Hmap.
  destruct Hshape as [E | [E | [E | E]]]; rewrite E; simpl; lia.
Qed.

(** C8 as stated fails: stage 2A does not look at the withdrawal's
    status. Run a second time for the same withdrawal, now failed, it
    credits the wallet again: 600 after the hold, 1000 after the first
    refund, 1400 after the second. *)
Lemma refund_twice_credits_twice :
  let env := ex_env never gateway_refuses in
  let r1 := stage2A_refund env 1 7 400 ex_processing_wd ex_hold_tx
              gateway_refuses ex_held_world in
  let failedWd := wd_failed ex_processing_wd "Transfer service unavailable" in
  let r2 := stage2A_refund env 1 7 400 failedWd ex_hold_tx
              gateway_refuses (snd r1) in
  (exists w : Wallet,
      find_by_id w_id 1 (wallets (db ex_held_world)) = Some w /\ balance w == 600) /\
  (fst r1 = Ok tt /\
   find_by_id wd_id 1 (withdrawals (db (snd r1))) = Some failedWd /\
   wd_status failedWd = "failed"%string /\
   exists w : Wallet,
     find_by_id w_id 1 (wallets (db (snd r1))) = Some w /\ balance w == 1000) /\
  (fst r2 = Ok tt /\
   exists w : Wallet,
     find_by_id w_id 1 (wallets (db (snd r2))) = Some w /\
     balance w == 1400 /\ (balance w == 1000 -> False)) /\
  List.length (refund_rows (wallet_ledger (db (snd r2)))) = 2%nat.
Proof.
  vm_compute.
  repeat split; try reflexivity;
    eexists; (split; [reflexivity|]); try reflexivity.
  split; [reflexivity | discriminate].
Qed.

(* ------------------------------------------------------------------ *)
(** ** Bank account resolution *)




(* ------------------------------------------------------------------ *)
(** ** The expected amount of a deposit verification *)

(** The credit of a found pending deposit answers 200 or 404, or throws. *)
Lemma credit_pending_message (env : Env) (uid : uuid) (ptx : Transaction)
    (amount : Q) (s : World) :
  match fst (credit_pending env uid ptx amount s) with
  | Ok r => message r <> "Amount mismatch"%string
  | Thrown _ => True
  end.
Proof.
  unfold credit_pending. run_monad.
  destruct (find (fun w => Nat.eqb (w_user_id w) uid) (wallets (db s))); simpl;
    [|discriminate].
  repeat (case_write env; try exact I). discriminate.
Qed.

(** The fallback credit answers 200, or throws. *)
Lemma credit_fallback_message (env : Env) (uid : uuid) (reference : string)
    (amount : Q) (s : World) :
  match fst (credit_fallback env uid reference amount s) with
  | Ok r => message r <> "Amount mismatch"%string
  | Thrown _ => True
  end.
Proof.
  unfold credit_fallback, getWalletByUserId, createWallet. run_monad.
  destruct (find (Nat.eqb uid) (users (db s))); simpl; [|exact I].
  destruct (find (fun w => Nat.eqb (w_user_id w) uid) (wallets (db s))) eqn:Hfind;
    simpl; [|rewrite Hfind; simpl];
    repeat (case_write env; try exact I); discriminate.
Qed.

(** C10. An expectedAmount that is 0, or otherwise falsy, is treated as
    absent: the verification runs exactly as the request without the
    field does, whatever amount the gateway reports, and once the gateway
    verified the payment its answer is never "Amount mismatch". *)
Theorem falsy_expected_amount_is_absent :
  truthy_num (Some 0) = false /\
  truthy_num None = false /\
  forall (env : Env) (req : VerifyRequest) (s : World),
    truthy_num (vr_expectedAmount req) = false ->
    post_deposits_verify env req s
    = post_deposits_verify env (without_expected req) s
    /\ (verified_ok (verifyPayment env (vr_reference req)) = true ->
        forall r : Response,
          fst (post_deposits_verify env req s) = Ok r ->
          message r <> "Amount mismatch"%string).
Proof.
  split; [reflexivity|]. split; [reflexivity|].
  intros env req s Hfalsy. split.
  - unfold post_deposits_verify, without_expected. simpl. rewrite Hfalsy.
    reflexivity.
  - intros Hok r.
    unfold verified_ok in Hok.
    apply andb_true_iff in Hok. destruct Hok as [Hok Hdata].
    apply andb_true_iff in Hok. destruct Hok as [Hsucc Hver].
    unfold post_deposits_verify, catch_500, bind, query, ret.
    destruct (String.eqb (vr_reference req) EmptyString).
    { intros E. inversion E; subst. simpl. discriminate. }
    rewrite Hfalsy, Hsucc, Hver, Hdata. simpl.
    set (amount := num_or (data_amount (verifyPayment env (vr_reference req))) 0 / 100).
    destruct (find _ (transactions (db s))) as [ptx|].
    + destruct (negb (Qeq_bool (Math_round (num_or (t_amount ptx) 0 * 100))
                               (Math_round (amount * 100)))).
      { intros E. inversion E; subst. simpl. discriminate. }
      pose proof (credit_pending_message env (vr_user req) ptx amount s) as Hm.
      destruct (credit_pending env (vr_user req) ptx amount s) as [[r1|e] s1];
        simpl in Hm; intros E; inversion E; subst; [exact Hm | simpl; discriminate].
    + pose proof (credit_fallback_message env (vr_user req) (vr_reference req)
                    amount s) as Hm.
      destruct (credit_fallback env (vr_user req) (vr_reference req) amount s)
        as [[r1|e] s1];
        simpl in Hm; intros E; inversion E; subst; [exact Hm | simpl; discriminate].
Qed.

(* ------------------------------------------------------------------ *)
(** ** C2: the ledger and the balance *)

















(* ------------------------------------------------------------------ *)
(** ** The wallet lookup of walletService.ts *)


(** X2: once [getWalletByUserId] has returned a wallet, asking again
    returns the same wallet and writes nothing: the lookup creates at
    most once. *)
Theorem wallet_lookup_is_idempotent :
  forall (env : Env) (uid : uuid) (s s1 : World) (w : Wallet),
    getWalletByUserId env uid s = (Ok w, s1) ->
    getWalletByUserId env uid s1 = (Ok w, s1).
Proof.
  intros env uid s s1 w. unfold getWalletByUserId at 1, createWallet. run_monad.
  destruct (find (Nat.eqb uid) (users (db s))) as [u|] eqn:Hu; simpl; [|discriminate].
  destruct (find (fun x => Nat.eqb (w_user_id x) uid) (wallets (db s)))
    as [w0|] eqn:Hfind; simpl.
  - intro H. inversion H; subst w0 s1.
    apply (getWalletByUserId_existing env s uid u w Hu Hfind).
  - rewrite Hfind. simpl. case_write env; [discriminate|].
    intro H. inversion H; subst w s1. clear H.
    apply (getWalletByUserId_existing env _ uid u); simpl; [exact Hu|].
    rewrite (upsert_fresh w_id) by reflexivity.
    rewrite (find_app_none _ _ _ Hfind). simpl. rewrite Nat.eqb_refl. reflexivity.
Qed.

(** X3: the lookup keeps the wallets table at one wallet per user and
    one row per wallet id, whether it creates a wallet, finds one, or
    fails. *)
Theorem one_wallet_per_user :
  forall (env : Env) (uid : uuid) (s : World),
    NoDup (map w_user_id (wallets (db s))) ->
    NoDup (map w_id (wallets (db s))) ->
    NoDup (map w_user_id (wallets (db (snd (getWalletByUserId env uid s))))) /\
    NoDup (map w_id (wallets (db (snd (getWalletByUserId env uid s))))).
Proof.
  intros env uid s Hus Hids.
  unfold getWalletByUserId, createWallet. run_monad.
  destruct (find (Nat.eqb uid) (users (db s))); simpl; [|split; assumption].
  destruct (find (fun x => Nat.eqb (w_user_id x) uid) (wallets (db s)))
    as [w0|] eqn:Hfind; simpl; [split; assumption|].
  rewrite Hfind. simpl. case_write env; [split; assumption|].
  rewrite (upsert_fresh w_id) by reflexivity. rewrite !map_app. simpl.
  split.
  - apply NoDup_snoc; [exact Hus | apply find_user_absent; exact Hfind].
  - apply NoDup_snoc; [exact Hids|].
    intro Hin. apply in_map_iff in Hin. destruct Hin as [x [Hx Hin]].
    pose proof (fresh_id_bound w_id _ _ Hin) as Hb. lia.
Qed.

(* ------------------------------------------------------------------ *)
(** ** addFunds, withdrawFunds and transferFunds of walletService.ts *)

(** X4: [addFunds] on an existing wallet, with every write landing,
    raises the balance and the deposited total by the amount, leaves the
    pending balance alone, appends one completed DEPOSIT transaction of
    that amount, and writes no ledger row. *)
Theorem addFunds_credits_without_ledger :
  forall (env : Env) (s : World) (uid u : uuid) (w : Wallet) (amount : Q)
         (paymentMethod : string),
    no_faults env ->
    find (Nat.eqb uid) (users (db s)) = Some u ->
    find (fun x => Nat.eqb (w_user_id x) uid) (wallets (db s)) = Some w ->
    exists (s1 : World) (w1 : Wallet) (tx : Transaction),
      addFunds env uid amount paymentMethod s = (Ok (w1, tx), s1) /\
      find (fun x => Nat.eqb (w_user_id x) uid) (wallets (db s1)) = Some w1 /\
      balance w1 = balance w + amount /\
      total_deposited w1 = total_deposited w + amount /\
      pending_balance w1 = pending_balance w /\
      transactions (db s1) = transactions (db s) ++ [tx] /\
      t_wallet_id tx = w_id w /\ t_amount tx = amount /\
      transaction_type tx = DEPOSIT /\ t_status tx = COMPLETED /\
      wallet_ledger (db s1) = wallet_ledger (db s).
Proof.
  intros env s uid u w amount pm Hnf Hu Hfind.
  pose proof (find_some _ _ Hfind) as [_ Huid]. apply Nat.eqb_eq in Huid.
  unfold addFunds, getWalletByUserId. run_monad.
  rewrite Hu. simpl. rewrite Hfind. simpl. rewrite !Hnf. simpl.
  eexists. exists (credit_wallet w amount). eexists.
  split; [reflexivity|]. simpl.
  split; [apply (find_user_upsert _ w); [exact Hfind | reflexivity | exact Huid]|].
  rewrite (upsert_fresh t_id) by reflexivity.
  repeat (split; [reflexivity|]). reflexivity.
Qed.

(** X5: [withdrawFunds] on an existing wallet either refuses or debits.
    With a balance below the amount it throws 'Insufficient balance' and
    the database is as before. Otherwise, every write landing, the
    balance falls by the amount, the pending balance stays, one PENDING
    transaction of type WITHDRAWAL is appended, and neither a ledger row
    nor a withdrawal row is written. *)
Theorem withdrawFunds_debits_or_refuses :
  forall (env : Env) (s : World) (uid u : uuid) (w : Wallet) (amount : Q)
         (bank : string),
    no_faults env ->
    find (Nat.eqb uid) (users (db s)) = Some u ->
    find (fun x => Nat.eqb (w_user_id x) uid) (wallets (db s)) = Some w ->
    (balance w < amount ->
     withdrawFunds env uid amount bank s = (Thrown "Insufficient balance", s)) /\
    (amount <= balance w ->
     exists (s1 : World) (w1 : Wallet) (tx : Transaction),
       withdrawFunds env uid amount bank s = (Ok (w1, tx), s1) /\
       find (fun x => Nat.eqb (w_user_id x) uid) (wallets (db s1)) = Some w1 /\
       balance w1 = balance w - amount /\
       pending_balance w1 = pending_balance w /\
       transactions (db s1) = transactions (db s) ++ [tx] /\
       t_amount tx = amount /\ transaction_type tx = WITHDRAWAL /\
       t_status tx = PENDING /\
       wallet_ledger (db s1) = wallet_ledger (db s) /\
       withdrawals (db s1) = withdrawals (db s)).
Proof.
  intros env s uid u w amount bank Hnf Hu Hfind.
  pose proof (find_some _ _ Hfind) as [_ Huid]. apply Nat.eqb_eq in Huid.
  split; intro Hcmp.
  - apply lt_true_iff in Hcmp.
    unfold withdrawFunds, getWalletByUserId. run_monad.
    rewrite Hu. simpl. rewrite Hfind. simpl. rewrite Hcmp. reflexivity.
  - apply lt_false_iff in Hcmp.
    unfold withdrawFunds, getWalletByUserId. run_monad.
    rewrite Hu. simpl. rewrite Hfind. simpl. rewrite Hcmp. simpl.
    rewrite !Hnf. simpl.
    eexists. exists (with_balance w (balance w - amount)). eexists.
    split; [reflexivity|]. simpl.
    split; [apply (find_user_upsert _ w); [exact Hfind | reflexivity | exact Huid]|].
    rewrite (upsert_fresh t_id) by reflexivity.
    repeat (split; [reflexivity|]). reflexivity.
Qed.

(** X6: [transferFunds] between the wallets of two different users, with
    every write landing and a sufficient balance, debits the sender and
    credits the receiver by the amount, so the two balances add up to
    what they did; it appends two completed TRANSFER transactions and no
    ledger row. *)
Theorem transferFunds_conserves_money :
  forall (env : Env) (s : World) (fromId toId u1 u2 : uuid) (wf wt : Wallet)
         (amount : Q) (description : string),
    no_faults env ->
    find (Nat.eqb fromId) (users (db s)) = Some u1 ->
    find (Nat.eqb toId) (users (db s)) = Some u2 ->
    find (fun x => Nat.eqb (w_user_id x) fromId) (wallets (db s)) = Some wf ->
    find (fun x => Nat.eqb (w_user_id x) toId) (wallets (db s)) = Some wt ->
    fromId <> toId -> w_id wf <> w_id wt ->
    amount <= balance wf ->
    exists (s1 : World) (wf1 wt1 : Wallet) (tx1 tx2 : Transaction),
      transferFunds env fromId toId amount description s = (Ok (wf1, wt1), s1) /\
      find (fun x => Nat.eqb (w_user_id x) fromId) (wallets (db s1)) = Some wf1 /\
      find (fun x => Nat.eqb (w_user_id x) toId) (wallets (db s1)) = Some wt1 /\
      balance wf1 = balance wf - amount /\
      balance wt1 = balance wt + amount /\
      balance wf1 + balance wt1 == balance wf + balance wt /\
      transactions (db s1) = transactions (db s) ++ [tx1; tx2] /\
      (t_wallet_id tx1 = w_id wf /\ transaction_type tx1 = TRANSFER /\
       t_status tx1 = COMPLETED /\ t_amount tx1 = amount) /\
      (t_wallet_id tx2 = w_id wt /\ transaction_type tx2 = TRANSFER /\
       t_status tx2 = COMPLETED /\ t_amount tx2 = amount) /\
      wallet_ledger (db s1) = wallet_ledger (db s).
Proof.
  intros env s fromId toId u1 u2 wf wt amount description
         Hnf Hu1 Hu2 Hf Ht Hne Hids Hcmp.
  apply lt_false_iff in Hcmp.
  pose proof (find_some _ _ Hf) as [_ Huf]. apply Nat.eqb_eq in Huf.
  pose proof (find_some _ _ Ht) as [_ Hut]. apply Nat.eqb_eq in Hut.
  unfold transferFunds, getWalletByUserId. run_monad.
  rewrite Hu1. simpl. rewrite Hf. simpl. rewrite Hu2. simpl. rewrite Ht. simpl.
  rewrite Hcmp. simpl. rewrite !Hnf. simpl.
  eexists. exists (with_balance wf (balance wf - amount)),
                  (with_balance wt (balance wt + amount)).
  eexists. eexists.
  split; [reflexivity|]. simpl.
  split.
  { apply (find_user_upsert_other _ (with_balance wf (balance wf - amount))).
    - apply (find_user_upsert _ wf); [exact Hf | reflexivity | exact Huf].
    - simpl. congruence.
    - simpl. congruence. }
  split.
  { apply (find_user_upsert _ wt); [|reflexivity | exact Hut].
    apply (find_user_upsert_other _ wt); [exact Ht | simpl; congruence | simpl; congruence]. }
  split; [reflexivity|]. split; [reflexivity|].
  split; [simpl; ring|].
  rewrite (upsert_fresh t_id) by reflexivity.
  rewrite (upsert_fresh t_id) by reflexivity.
  rewrite <- app_assoc. simpl.
  split; [reflexivity|]. split; [repeat split|]. split; [repeat split | reflexivity].
Qed.

(** X7: a transfer from a user to the same user does not leave the
    balance as it was. Both wallet objects are read before either is
    saved, so the credit computed from the balance read first is saved
    last: the balance ends [amount] higher, and two TRANSFER
    transactions are appended. *)
Theorem transferFunds_to_self_adds_amount :
  forall (env : Env) (s : World) (uid u : uuid) (w : Wallet) (amount : Q)
         (description : string),
    no_faults env ->
    find (Nat.eqb uid) (users (db s)) = Some u ->
    find (fun x => Nat.eqb (w_user_id x) uid) (wallets (db s)) = Some w ->
    amount <= balance w ->
    exists (s1 : World) (w1 w2 : Wallet),
      transferFunds env uid uid amount description s = (Ok (w1, w2), s1) /\
      find (fun x => Nat.eqb (w_user_id x) uid) (wallets (db s1)) = Some w2 /\
      balance w2 = balance w + amount /\
      List.length (transactions (db s1)) = (2 + List.length (transactions (db s)))%nat.
Proof.
  intros env s uid u w amount description Hnf Hu Hfind Hcmp.
  apply lt_false_iff in Hcmp.
  pose proof (find_some _ _ Hfind) as [_ Huid]. apply Nat.eqb_eq in Huid.
  unfold transferFunds, getWalletByUserId. run_monad.
  rewrite Hu. simpl. rewrite Hfind. simpl. rewrite Hu. simpl. rewrite Hfind. simpl.
  rewrite Hcmp. simpl. rewrite !Hnf. simpl.
  eexists. exists (with_balance w (balance w - amount)),
                  (with_balance w (balance w + amount)).
  split; [reflexivity|]. simpl.
  split.
  { apply (find_user_upsert _ (with_balance w (balance w - amount)));
      [|reflexivity | exact Huid].
    apply (find_user_upsert _ w); [exact Hfind | reflexivity | exact Huid]. }
  split; [reflexivity|].
  rewrite (upsert_fresh t_id) by reflexivity.
  rewrite (upsert_fresh t_id) by reflexivity.
  rewrite !length_app. simpl. lia.
Qed.

(** X8: [transferFunds] is not one unit of work. When the save of the
    sender's wallet lands and the save of the receiver's wallet fails,
    the call throws with the sender already debited, the receiver not
    credited and no transaction row written. *)
Theorem transferFunds_debit_survives_failed_credit :
  forall (env : Env) (s : World) (fromId toId u1 u2 : uuid) (wf wt : Wallet)
         (amount : Q) (description : string),
    write_fails env (writes s) = false ->
    write_fails env (S (writes s)) = true ->
    find (Nat.eqb fromId) (users (db s)) = Some u1 ->
    find (Nat.eqb toId) (users (db s)) = Some u2 ->
    find (fun x => Nat.eqb (w_user_id x) fromId) (wallets (db s)) = Some wf ->
    find (fun x => Nat.eqb (w_user_id x) toId) (wallets (db s)) = Some wt ->
    fromId <> toId -> w_id wf <> w_id wt ->
    amount <= balance wf ->
    exists (s1 : World) (wf1 : Wallet),
      transferFunds env fromId toId amount description s
      = (Thrown "Database write failed", s1) /\
      find (fun x => Nat.eqb (w_user_id x) fromId) (wallets (db s1)) = Some wf1 /\
      balance wf1 = balance wf - amount /\
      find (fun x => Nat.eqb (w_user_id x) toId) (wallets (db s1)) = Some wt /\
      transactions (db s1) = transactions (db s).
Proof.
  intros env s fromId toId u1 u2 wf wt amount description
         Hw0 Hw1 Hu1 Hu2 Hf Ht Hne Hids Hcmp.
  apply lt_false_iff in Hcmp.
  pose proof (find_some _ _ Hf) as [_ Huf]. apply Nat.eqb_eq in Huf.
  pose proof (find_some _ _ Ht) as [_ Hut]. apply Nat.eqb_eq in Hut.
  unfold transferFunds, getWalletByUserId. run_monad.
  rewrite Hu1. simpl. rewrite Hf. simpl. rewrite Hu2. simpl. rewrite Ht. simpl.
  rewrite Hcmp. simpl. rewrite Hw0. simpl. rewrite Hw1. simpl.
  eexists. exists (with_balance wf (balance wf - amount)).
  split; [reflexivity|]. simpl.
  split; [apply (find_user_upsert _ wf); [exact Hf | reflexivity | exact Huf]|].
  split; [reflexivity|].
  split; [|reflexivity].
  apply (find_user_upsert_other _ wt); [exact Ht | simpl; congruence | simpl; congruence].
Qed.

(* ------------------------------------------------------------------ *)
(** ** The guards before the handlers, the prize credit, the net amount *)

(** X9: the middleware answers before the handler runs. Without a token
    or with a token that does not verify both routes answer 401; a user
    who is not a creator gets 403 from the withdrawal route and a user
    who is not a brand gets 403 from the deposit verification. In all
    these cases nothing is read or written and the gateway is not
    called. *)
Theorem middleware_answers_before_handler :
  forall (env : Env) (body : WithdrawalBody) (reference : string)
         (expectedAmount : option Q) (s : World),
    withdrawals_route env NoToken body s
    = (Ok (mkResponse 401 false "Access denied. No token provided."), s) /\
    withdrawals_route env BadToken body s
    = (Ok (mkResponse 401 false "Invalid token."), s) /\
    deposits_verify_route env NoToken reference expectedAmount s
    = (Ok (mkResponse 401 false "Access denied. No token provided."), s) /\
    deposits_verify_route env BadToken reference expectedAmount s
    = (Ok (mkResponse 401 false "Invalid token."), s) /\
    (forall user : AuthUser,
        au_type user <> CREATOR ->
        withdrawals_route env (Token user) body s
        = (Ok (mkResponse 403 false "Access denied. Insufficient permissions."), s)) /\
    (forall user : AuthUser,
        au_type user <> BRAND ->
        deposits_verify_route env (Token user) reference expectedAmount s
        = (Ok (mkResponse 403 false "Access denied. Insufficient permissions."), s)).
Proof.
  intros env body reference expectedAmount s.
  repeat (split; [reflexivity|]).
  split; intros [uid t] Ht; simpl in Ht;
    unfold withdrawals_route, deposits_verify_route; simpl;
    destruct t; try reflexivity; congruence.
Qed.


(** X11: the net amount of a withdrawal is never negative, whatever the
    amount and the fee. *)
Theorem net_is_never_negative :
  forall amount : Q, 0 <= net amount.
Proof.
  intro amount. unfold net. apply Math_max_nonneg.
Qed.

(* ------------------------------------------------------------------ *)
(** ** The theorems at concrete inputs *)




Lemma falsy_expected_amount_is_absent_witness :
  post_deposits_verify (ex_env never gateway_accepts) ex_verify_zero
    (mkWorld ex_deposit_db 0 [])
  = post_deposits_verify (ex_env never gateway_accepts)
      (without_expected ex_verify_zero) (mkWorld ex_deposit_db 0 []) /\
  message (mkResponse 200 true EmptyString) <> "Amount mismatch"%string.
Proof.
  destruct falsy_expected_amount_is_absent as [_ [_ H]].
  destruct (H (ex_env never gateway_accepts) ex_verify_zero
              (mkWorld ex_deposit_db 0 []) eq_refl) as [H1 H2].
  split; [exact H1|].
  apply H2; reflexivity.
Defined.




(* ------------------------------------------------------------------ *)
(** ** The service theorems at concrete inputs *)


Lemma wallet_lookup_is_idempotent_witness :
  let env := ex_env never gateway_accepts in
  let s := mkWorld (mkDB [8%nat] [] [] [] [] []) 0 [] in
  let s1 := mkWorld (mkDB [8%nat] [mkWallet 1 8 0 0 0 0 "USD"] [] [] [] []) 1 [] in
  getWalletByUserId env 8 s = (Ok (mkWallet 1 8 0 0 0 0 "USD"), s1) /\
  getWalletByUserId env 8 s1 = (Ok (mkWallet 1 8 0 0 0 0 "USD"), s1).
Proof.
  intros env s s1.
  assert (E : getWalletByUserId env 8 s = (Ok (mkWallet 1 8 0 0 0 0 "USD"), s1))
    by reflexivity.
  split; [exact E|].
  exact (wallet_lookup_is_idempotent env 8%nat s s1 _ E).
Defined.

Lemma one_wallet_per_user_witness :
  NoDup (map w_user_id
           (wallets (db (snd (getWalletByUserId (ex_env never gateway_accepts) 8
                                ex_two_users))))).
Proof.
  destruct (one_wallet_per_user (ex_env never gateway_accepts) 8%nat ex_two_users)
    as [H _].
  - simpl. repeat constructor; simpl; intuition lia.
  - simpl. repeat constructor; simpl; intuition lia.
  - exact H.
Defined.

Lemma addFunds_credits_without_ledger_witness :
  exists (s1 : World) (w1 : Wallet),
    fst (addFunds (ex_env never gateway_accepts) 7 250 "card" (ex_world 1000 0))
    = Ok (w1, mkTransaction 1 1 7 250 DEPOSIT COMPLETED "Deposit via card" None false) /\
    snd (addFunds (ex_env never gateway_accepts) 7 250 "card" (ex_world 1000 0)) = s1 /\
    balance w1 = 1000 + 250 /\
    wallet_ledger (db s1) = [].
Proof.
  destruct (addFunds_credits_without_ledger (ex_env never gateway_accepts)
              (ex_world 1000 0) 7%nat 7%nat (ex_wallet 1000 0) 250 "card"
              (never_no_faults gateway_accepts) eq_refl eq_refl)
    as [s1 [w1 [tx [H [_ [Hb [_ [_ [_ [_ [_ [_ [_ Hl]]]]]]]]]]]]].
  exists s1, w1. rewrite H. simpl.
  split; [|split; [reflexivity | split; [exact Hb | exact Hl]]].
  vm_compute in H. inversion H. reflexivity.
Defined.

Lemma withdrawFunds_debits_or_refuses_witness :
  withdrawFunds (ex_env never gateway_accepts) 7 5000 "Access Bank" (ex_world 1000 0)
  = (Thrown "Insufficient balance", ex_world 1000 0) /\
  exists (s1 : World) (w1 : Wallet) (tx : Transaction),
    withdrawFunds (ex_env never gateway_accepts) 7 400 "Access Bank" (ex_world 1000 0)
    = (Ok (w1, tx), s1) /\
    balance w1 = 1000 - 400 /\
    wallet_ledger (db s1) = [] /\ withdrawals (db s1) = [].
Proof.
  destruct (withdrawFunds_debits_or_refuses (ex_env never gateway_accepts)
              (ex_world 1000 0) 7%nat 7%nat (ex_wallet 1000 0) 5000 "Access Bank"
              (never_no_faults gateway_accepts) eq_refl eq_refl) as [H1 _].
  destruct (withdrawFunds_debits_or_refuses (ex_env never gateway_accepts)
              (ex_world 1000 0) 7%nat 7%nat (ex_wallet 1000 0) 400 "Access Bank"
              (never_no_faults gateway_accepts) eq_refl eq_refl) as [_ H2].
  split.
  - apply H1. simpl. lra.
  - destruct H2 as [s1 [w1 [tx [H [_ [Hb [_ [_ [_ [_ [_ [Hl Hw]]]]]]]]]]]].
    + simpl. lra.
    + exists s1, w1, tx. repeat split; assumption.
Defined.

Lemma transferFunds_conserves_money_witness :
  exists (s1 : World) (wf1 wt1 : Wallet),
    transferFunds (ex_env never gateway_accepts) 7 8 400 "gift" ex_two_users
    = (Ok (wf1, wt1), s1) /\
    balance wf1 = 1000 - 400 /\ balance wt1 = 0 + 400 /\
    balance wf1 + balance wt1 == 1000 + 0.
Proof.
  destruct (transferFunds_conserves_money (ex_env never gateway_accepts) ex_two_users
              7%nat 8%nat 7%nat 8%nat (ex_wallet 1000 0) (mkWallet 2 8 0 0 0 0 "USD")
              400 "gift" (never_no_faults gateway_accepts) eq_refl eq_refl eq_refl eq_refl)
    as [s1 [wf1 [wt1 [tx1 [tx2 [H [_ [_ [Hf [Ht [Hsum _]]]]]]]]]]].
  - lia.
  - simpl. lia.
  - simpl. lra.
  - exists s1, wf1, wt1. repeat split; assumption.
Defined.

Lemma transferFunds_to_self_adds_amount_witness :
  exists (s1 : World) (w1 w2 : Wallet),
    transferFunds (ex_env never gateway_accepts) 7 7 400 "gift" (ex_world 1000 0)
    = (Ok (w1, w2), s1) /\
    find (fun x => Nat.eqb (w_user_id x) 7) (wallets (db s1)) = Some w2 /\
    balance w2 = 1000 + 400.
Proof.
  destruct (transferFunds_to_self_adds_amount (ex_env never gateway_accepts)
              (ex_world 1000 0) 7%nat 7%nat (ex_wallet 1000 0) 400 "gift"
              (never_no_faults gateway_accepts) eq_refl eq_refl)
    as [s1 [w1 [w2 [H [Hf [Hb _]]]]]].
  - simpl. lra.
  - exists s1, w1, w2. repeat split; assumption.
Defined.

Lemma transferFunds_debit_survives_failed_credit_witness :
  exists (s1 : World) (wf1 : Wallet),
    transferFunds (ex_env (Nat.eqb 1) gateway_accepts) 7 8 400 "gift" ex_two_users
    = (Thrown "Database write failed", s1) /\
    find (fun x => Nat.eqb (w_user_id x) 7) (wallets (db s1)) = Some wf1 /\
    balance wf1 = 1000 - 400 /\
    find (fun x => Nat.eqb (w_user_id x) 8) (wallets (db s1))
    = Some (mkWallet 2 8 0 0 0 0 "USD") /\
    transactions (db s1) = [].
Proof.
  destruct (transferFunds_debit_survives_failed_credit
              (ex_env (Nat.eqb 1) gateway_accepts) ex_two_users
              7%nat 8%nat 7%nat 8%nat (ex_wallet 1000 0) (mkWallet 2 8 0 0 0 0 "USD")
              400 "gift" eq_refl eq_refl eq_refl eq_refl eq_refl eq_refl)
    as [s1 [wf1 [H [Hf [Hb [Ht Htx]]]]]].
  - lia.
  - simpl. lia.
  - simpl. lra.
  - exists s1, wf1. repeat split; assumption.
Defined.

Lemma middleware_answers_before_handler_witness :
  withdrawals_route (ex_env never gateway_accepts) (Token ex_brand)
    (ex_body (AsNumber 400)) (ex_prize_world never gateway_accepts)
  = (Ok (mkResponse 403 false "Access denied. Insufficient permissions."),
     ex_prize_world never gateway_accepts) /\
  deposits_verify_route (ex_env never gateway_accepts) (Token ex_creator) "R1" None
    (mkWorld ex_deposit_db 0 [])
  = (Ok (mkResponse 403 false "Access denied. Insufficient permissions."),
     mkWorld ex_deposit_db 0 []).
Proof.
  split.
  - destruct (middleware_answers_before_handler (ex_env never gateway_accepts)
                (ex_body (AsNumber 400)) "R1" None
                (ex_prize_world never gateway_accepts)) as [_ [_ [_ [_ [H _]]]]].
    apply (H ex_brand). simpl. discriminate.
  - destruct (middleware_answers_before_handler (ex_env never gateway_accepts)
                (ex_body (AsNumber 400)) "R1" None
                (mkWorld ex_deposit_db 0 [])) as [_ [_ [_ [_ [_ H]]]]].
    apply (H ex_creator). simpl. discriminate.
Defined.

